(** * Modbus RTU frame codec of the modbus_mqtt bridge

    Shallow embedding of the frame builders ([crc16], [build_relay_command],
    [build_read_input], [build_read_output] / [builst_read_output]) and of the
    response handling of the command processors in
    [modbus_mqtt_bridge_json.py], [raw_modbus_test.py] and
    [modbus_mqtt_bridge.py].

    Python integers are modelled as [Z] (unbounded, no wrap-around), Python
    [bytes] as [list Byte.byte], and raised exceptions as the [Err] branch of
    a result type. *)

From Stdlib Require Import ZArith List String Ascii Lia Bool.
Import ListNotations.
Open Scope string_scope.
Open Scope list_scope.
Open Scope Z_scope.

(** ** Python runtime fragment *)

Fixpoint digits_of_nat (fuel n : nat) (acc : string) : string :=
  match fuel with
  | O => acc
  | S fuel' =>
      let acc' := String (ascii_of_nat (48 + n mod 10)) acc in
      if Nat.ltb n 10 then acc' else digits_of_nat fuel' (n / 10) acc'
  end.

(** [str(n)] for a Python integer. *)
Definition str_int (z : Z) : string :=
  if z <? 0 then String "-" (digits_of_nat (S (Z.to_nat (- z))) (Z.to_nat (- z)) EmptyString)
  else digits_of_nat (S (Z.to_nat z)) (Z.to_nat z) EmptyString.

Module Py.

(** The exceptions the modelled code can raise. *)
Inductive exn :=
  | ValueError (msg : string)
  | IndexError (msg : string)
  | OverflowError (msg : string)
  | SystemExit (code : Z).

(** [str(e)] *)
Definition exn_str (e : exn) : string :=
  match e with
  | ValueError m | IndexError m | OverflowError m => m
  | SystemExit c => str_int c
  end.

Inductive result (A : Type) :=
  | Ok (a : A)
  | Err (e : exn).
Arguments Ok {A} a.
Arguments Err {A} e.

Definition bind {A B} (m : result A) (k : A -> result B) : result B :=
  match m with
  | Ok a => k a
  | Err e => Err e
  end.

Notation "'let*' x ':=' m 'in' k" := (bind m (fun x => k))
  (at level 200, x name, m at level 100, right associativity).

Definition byte := Byte.byte.
Definition pybytes := list byte.

(** The integer value of a byte, as Python's iteration over [bytes] yields. *)
Definition to_Z (b : byte) : Z := Z.of_N (Byte.to_N b).

(** The byte of an integer known to lie in [range(0, 256)]. *)
Definition byte_of_Z (z : Z) : byte :=
  match Byte.of_N (Z.to_N z) with
  | Some b => b
  | None => Byte.x00
  end.

(** [bytes([x0, x1, ...])]: raises [ValueError] unless every element lies
    in [range(0, 256)]. *)
Fixpoint bytes_of_list (xs : list Z) : result pybytes :=
  match xs with
  | [] => Ok []
  | x :: xs' =>
      if (0 <=? x) && (x <? 256) then
        let* r := bytes_of_list xs' in Ok (byte_of_Z x :: r)
      else Err (ValueError "bytes must be in range(0, 256)")
  end.

(** [b[i]] for a [bytes] object [b] and [i >= 0]. *)
Definition index (b : pybytes) (i : nat) : result Z :=
  match nth_error b i with
  | Some x => Ok (to_Z x)
  | None => Err (IndexError "index out of range")
  end.

(** [n.to_bytes(2, byteorder='little')] for [n >= 0]; [OverflowError]
    when [n] does not fit in two bytes. *)
Definition to_bytes_2_little (n : Z) : result pybytes :=
  if (0 <=? n) && (n <? 65536) then
    Ok [byte_of_Z (Z.land n 255); byte_of_Z (Z.shiftr n 8)]
  else Err (OverflowError "int too big to convert").

End Py.

Import Py.

(** ** Modbus constants *)

Definition WRITE_REG : Z := 6.
Definition READ_REG : Z := 3.

(** ** CRC16 (identical in the three source files)

<<
def crc16(data: bytes):
    crc = 0xFFFF
    for byte in data:
        crc ^= byte
        for _ in range(8):
            if crc & 1:
                crc = (crc >> 1) ^ 0xA001
            else:
                crc >>= 1
    return crc.to_bytes(2, byteorder='little')
>> *)

(** One pass of the inner loop body. *)
Definition crc_shift (crc : Z) : Z :=
  if negb (Z.land crc 1 =? 0) then Z.lxor (Z.shiftr crc 1) 40961
  else Z.shiftr crc 1.

(** [for _ in range(8): ...] *)
Definition crc_inner (crc : Z) : Z := Nat.iter 8 crc_shift crc.

(** The register after the outer loop. *)
Definition crc16_reg (data : pybytes) : Z :=
  fold_left (fun crc b => crc_inner (Z.lxor crc (to_Z b))) data 65535.

Definition crc16 (data : pybytes) : result pybytes :=
  to_bytes_2_little (crc16_reg data).

(** Every value the variable [crc] takes while [crc16] runs, in order:
    the initial [0xFFFF], then per input byte the value after [crc ^= byte]
    and the value after each of the eight shift steps. *)
Definition crc_inner_trace (crc : Z) : list Z :=
  map (fun k => Nat.iter k crc_shift crc) (seq 1 8).

Fixpoint crc16_trace_from (crc : Z) (data : pybytes) : list Z :=
  match data with
  | [] => []
  | b :: data' =>
      let x := Z.lxor crc (to_Z b) in
      x :: crc_inner_trace x ++ crc16_trace_from (crc_inner x) data'
  end.

Definition crc16_trace (data : pybytes) : list Z :=
  65535 :: crc16_trace_from 65535 data.

(** ** Reference formulation following the spec's words

    Modbus CRC16 as a bit-serial register: initial value 0xFFFF, one input
    bit per iteration, input bits of each byte taken least significant
    first, reflected polynomial 0xA001 fed back when the bit leaving the
    register differs from the input bit. *)
Definition modbus_bit_step (reg : Z) (bit : bool) : Z :=
  if xorb (Z.testbit reg 0) bit then Z.lxor (Z.shiftr reg 1) 40961
  else Z.shiftr reg 1.

Definition modbus_byte_step (reg : Z) (b : Z) : Z :=
  fold_left (fun r i => modbus_bit_step r (Z.testbit b (Z.of_nat i)))
    (seq 0 8) reg.

Definition modbus_crc_reference (data : list Z) : Z :=
  fold_left modbus_byte_step data 65535.

(** Little-endian two-byte encoding of a 16-bit value. *)
Definition le16 (n : Z) : pybytes :=
  [byte_of_Z (n mod 256); byte_of_Z (n / 256)].

(** [frame + crc16(frame)] for a frame body all of whose elements are
    bytes: the 6-byte body followed by its CRC in little-endian order. *)
Definition frame_with_crc (body : list Z) : pybytes :=
  let frame := map byte_of_Z body in
  frame ++ le16 (crc16_reg frame).

(** The data high byte [build_relay_command] uses for a valid action:
    0x01 for "on", 0x02 for "off". *)
Definition action_hi (action : string) : Z := if String.eqb action "on" then 1 else 2.

(** ** Output formatting *)

Definition hex_digit (n : Z) : ascii :=
  if n <? 10 then ascii_of_nat (48 + Z.to_nat n)
  else ascii_of_nat (55 + Z.to_nat n).

(** [f"{x:02X}"] for a byte [x]. *)
Definition hex2 (b : byte) : string :=
  String (hex_digit (to_Z b / 16)) (String (hex_digit (to_Z b mod 16)) EmptyString).

(** [def hexdump(b): return ' '.join(f"{x:02X}" for x in b)] *)
Definition hexdump (b : pybytes) : string := String.concat " " (map hex2 b).

(** [range(lo, hi)] *)
Definition range (lo hi : Z) : list Z :=
  map (fun k => lo + Z.of_nat k) (seq 0 (Z.to_nat (hi - lo))).

(** ** Python text operations

    A Python [str] is modelled as a [string] whose characters are the code
    points below 256 (one [ascii] per code point, read as Latin-1). *)

Module Str.

Definition DQ : ascii := ascii_of_nat 34.

(** [c.isspace()]: \t \n \v \f \r, the separators 0x1C-0x1F, the space,
    NEL (0x85) and NBSP (0xA0). *)
Definition isspace (c : ascii) : bool :=
  let n := nat_of_ascii c in
  ((Nat.leb 9 n && Nat.leb n 13) || (Nat.leb 28 n && Nat.leb n 32) ||
   Nat.eqb n 133 || Nat.eqb n 160)%bool.

(** The C macro [Py_ISSPACE]: the six ASCII whitespace characters. *)
Definition c_isspace (c : ascii) : bool :=
  let n := nat_of_ascii c in ((Nat.leb 9 n && Nat.leb n 13) || Nat.eqb n 32)%bool.

Fixpoint lstrip (s : string) : string :=
  match s with
  | EmptyString => EmptyString
  | String c s' => if isspace c then lstrip s' else s
  end.

Definition reverse (s : string) : string :=
  string_of_list_ascii (rev (list_ascii_of_string s)).

(** [s.strip()] *)
Definition strip (s : string) : string := reverse (lstrip (reverse (lstrip s))).

(** [c.lower()]: A-Z and the Latin-1 capitals 0xC0-0xDE except 0xD7. *)
Definition lower_char (c : ascii) : ascii :=
  let n := nat_of_ascii c in
  if ((Nat.leb 65 n && Nat.leb n 90) ||
      (Nat.leb 192 n && Nat.leb n 222 && negb (Nat.eqb n 215)))%bool
  then ascii_of_nat (n + 32) else c.

(** [s.lower()] *)
Fixpoint lower (s : string) : string :=
  match s with
  | EmptyString => EmptyString
  | String c s' => String (lower_char c) (lower s')
  end.

(** [s.split()] with the word read so far in [word]. *)
Fixpoint split_from (s : string) (word : string) : list string :=
  match s with
  | EmptyString => if String.eqb word "" then [] else [word]
  | String c s' =>
      if isspace c then
        (if String.eqb word "" then split_from s' "" else word :: split_from s' "")
      else split_from s' (word ++ String c EmptyString)
  end.

(** [s.split()] *)
Definition split (s : string) : list string := split_from s "".

(** [s.startswith(p)] *)
Definition startswith (s p : string) : bool := String.prefix p s.

(** [s.replace(c, '')] for a one-character string [c]. *)
Fixpoint remove_char (c : ascii) (s : string) : string :=
  match s with
  | EmptyString => EmptyString
  | String d s' => if Ascii.eqb d c then remove_char c s' else String d (remove_char c s')
  end.

(** ["\n".join(lines)] *)
Definition join_lines (lines : list string) : string :=
  String.concat (String (ascii_of_nat 10) EmptyString) lines.

(** [c.isprintable()] below 256: everything but the control characters
    0x00-0x1F and 0x7F-0xA0, and the soft hyphen 0xAD. *)
Definition isprintable (c : ascii) : bool :=
  let n := nat_of_ascii c in
  negb (Nat.ltb n 32 || (Nat.leb 127 n && Nat.leb n 160) || Nat.eqb n 173)%bool.

Definition hex_lower (n : nat) : ascii :=
  if Nat.ltb n 10 then ascii_of_nat (48 + n) else ascii_of_nat (87 + n).

(** One character of [repr(s)] quoted with [q]. *)
Definition repr_char (q c : ascii) : string :=
  let n := nat_of_ascii c in
  if (Ascii.eqb c q || Ascii.eqb c "\")%bool then String "\" (String c EmptyString)
  else if Nat.eqb n 9 then "\t"
  else if Nat.eqb n 10 then "\n"
  else if Nat.eqb n 13 then "\r"
  else if isprintable c then String c EmptyString
  else String "\" (String "x" (String (hex_lower (n / 16)) (String (hex_lower (n mod 16)) EmptyString))).

(** [repr(s)]: single quotes, unless [s] holds a single quote and no
    double quote. *)
Definition repr (s : string) : string :=
  let cs := list_ascii_of_string s in
  let has c := existsb (Ascii.eqb c) cs in
  let q := if (has "'"%char && negb (has DQ))%bool then DQ else "'"%char in
  String q (String.concat "" (map (repr_char q) cs) ++ String q EmptyString).

Definition isdigit (c : ascii) : bool :=
  let n := nat_of_ascii c in (Nat.leb 48 n && Nat.leb n 57)%bool.

Definition digit_value (c : ascii) : Z := Z.of_nat (nat_of_ascii c) - 48.

(** The whitespace [int()] skips around the literal: [Py_ISSPACE] after the
    conversion of NEL and NBSP to spaces. *)
Definition int_space (c : ascii) : bool :=
  (c_isspace c || Nat.eqb (nat_of_ascii c) 133 || Nat.eqb (nat_of_ascii c) 160)%bool.

Fixpoint drop_while (p : ascii -> bool) (l : list ascii) : list ascii :=
  match l with
  | [] => []
  | c :: t => if p c then drop_while p t else l
  end.

(** The run of digits and underscores the base-10 conversion scans, and
    what follows it. *)
Fixpoint span_digits (l : list ascii) : list ascii * list ascii :=
  match l with
  | [] => ([], [])
  | c :: t =>
      if (isdigit c || Ascii.eqb c "_")%bool then
        let '(run, rest) := span_digits t in (c :: run, rest)
      else ([], l)
  end.

(** No two underscores in a row and no trailing underscore. *)
Fixpoint underscores_ok (run : list ascii) : bool :=
  match run with
  | [] => true
  | c :: t =>
      if Ascii.eqb c "_" then
        match t with
        | [] => false
        | d :: _ => (negb (Ascii.eqb d "_") && underscores_ok t)%bool
        end
      else underscores_ok t
  end.

Definition int_error (s : string) : exn :=
  ValueError ("invalid literal for int() with base 10: " ++ substring 0 200 (repr s)).

Definition limit_error (n : nat) : exn :=
  ValueError ("Exceeds the limit (4300 digits) for integer string conversion: value has "
              ++ str_int (Z.of_nat n)
              ++ " digits; use sys.set_int_max_str_digits() to increase the limit").

(** [int(s)] (base 10, the default limit of 4300 digits). *)
Definition py_int (s : string) : result Z :=
  let l := drop_while int_space (list_ascii_of_string s) in
  let '(sign, l1) :=
    match l with
    | c :: t => if Ascii.eqb c "+" then (1, t) else if Ascii.eqb c "-" then (-1, t) else (1, l)
    | [] => (1, l)
    end in
  let '(run, rest) := span_digits l1 in
  let ds := map digit_value (filter isdigit run) in
  match run with
  | [] => Err (int_error s)
  | c :: _ =>
      if negb (isdigit c && underscores_ok run)%bool then Err (int_error s)
      else if Nat.ltb 4300 (List.length ds) then Err (limit_error (List.length ds))
      else if forallb int_space rest then
        Ok (sign * fold_left (fun v d => 10 * v + d) ds 0)
      else Err (int_error s)
  end.

End Str.

(** ** [hexstr_to_bytes] (raw_modbus_test.py, modbus_mqtt_bridge.py) *)

(** A hexadecimal digit of [bytes.fromhex]. *)
Definition hex_value (c : ascii) : option Z :=
  let n := Z.of_nat (nat_of_ascii c) in
  if (48 <=? n) && (n <=? 57) then Some (n - 48)
  else if (65 <=? n) && (n <=? 70) then Some (n - 55)
  else if (97 <=? n) && (n <=? 102) then Some (n - 87)
  else None.

Definition fromhex_error (pos : Z) : exn :=
  ValueError ("non-hexadecimal number found in fromhex() arg at position " ++ str_int pos).

(** The pair loop of [bytes.fromhex] from position [pos]: whitespace
    before a pair is skipped; both digits of a pair must be hexadecimal. *)
Fixpoint fromhex_from (l : list ascii) (pos : Z) : result pybytes :=
  match l with
  | [] => Ok []
  | c :: t =>
      if Str.c_isspace c then fromhex_from t (pos + 1)
      else
        match hex_value c with
        | None => Err (fromhex_error pos)
        | Some top =>
            match t with
            | [] => Err (fromhex_error (pos + 1))
            | d :: t' =>
                match hex_value d with
                | None => Err (fromhex_error (pos + 1))
                | Some bot =>
                    let* rest := fromhex_from t' (pos + 2) in
                    Ok (byte_of_Z (top * 16 + bot) :: rest)
                end
            end
        end
  end.

Fixpoint first_non_ascii (l : list ascii) (pos : Z) : option Z :=
  match l with
  | [] => None
  | c :: t => if Nat.leb 128 (nat_of_ascii c) then Some pos else first_non_ascii t (pos + 1)
  end.

(** [bytes.fromhex(s)]: a string with a non-ASCII character is refused at
    the first such position before any pair is read. *)
Definition fromhex (s : string) : result pybytes :=
  let l := list_ascii_of_string s in
  match first_non_ascii l 0 with
  | Some pos => Err (fromhex_error pos)
  | None => fromhex_from l 0
  end.

(** [def hexstr_to_bytes(s): s = s.replace(' ','').replace('\n','');
    return bytes.fromhex(s)] *)
Definition hexstr_to_bytes (s : string) : result pybytes :=
  fromhex (Str.remove_char (ascii_of_nat 10) (Str.remove_char " " s)).

(** The [EXAMPLES] dict of [raw_modbus_test.py], in insertion order. *)
Definition EXAMPLES : list (string * string) :=
  [("chan1_open", "01 06 00 01 01 00 D9 9A");
   ("chan1_close", "01 06 00 01 02 00 D9 6A");
   ("read_ch1", "01 03 00 01 00 01 D5 CA");
   ("remove realationship", "01 06 00 FD 00 00 18 3A")].

(** ** JSON values published on MQTT ([json.dumps] of a dict) *)

Set Warnings "-register-all".

Inductive json :=
  | JNull
  | JInt (z : Z)
  | JStr (s : string)
  | JList (l : list json)
  | JObj (fields : list (string * json)).

(** ** The process environment: serial port, stdout, MQTT client

    [ser.read(256)] returns the reply the device produced for the last
    written frame, truncated to 256 bytes; the empty buffer when the device
    did not answer within the serial timeout.  The replies the device will
    produce are the list [replies], consumed one per read.  Since each read
    consumes exactly the reply scheduled for it, [ser.reset_input_buffer()]
    has nothing stale to discard, and [time.sleep] has no observable effect
    in this model. *)
Record world := mkWorld {
  written : list pybytes;    (** frames passed to [ser.write], oldest first *)
  replies : list pybytes;    (** replies the device has yet to send *)
  stdout : list string;      (** lines printed, oldest first *)
  published : list json      (** payloads passed to [publish_json] *)
}.

(** The world after printing [lines]. *)
Definition print_world (w : world) (lines : list string) : world :=
  mkWorld (written w) (replies w) (stdout w ++ lines) (published w).

Module IO.

Definition M (A : Type) := world -> result A * world.

Definition ret {A} (a : A) : M A := fun w => (Ok a, w).

Definition bindM {A B} (m : M A) (k : A -> M B) : M B :=
  fun w => match m w with
           | (Ok a, w') => k a w'
           | (Err e, w') => (Err e, w')
           end.

(** [raise] of a pure computation's exception. *)
Definition lift {A} (r : result A) : M A := fun w => (r, w).

(** [try: body except Exception as e: handler(e)] *)
Definition try_except {A} (body : M A) (handler : exn -> M A) : M A :=
  fun w => match body w with
           | (Ok a, w') => (Ok a, w')
           | (Err e, w') => handler e w'
           end.

Definition ser_reset_input_buffer : M unit := ret tt.

Definition ser_write (frame : pybytes) : M unit :=
  fun w => (Ok tt, mkWorld (written w ++ [frame]) (replies w) (stdout w) (published w)).

Definition ser_read (n : nat) : M pybytes :=
  fun w => match replies w with
           | [] => (Ok [], w)
           | r :: rs => (Ok (firstn n r), mkWorld (written w) rs (stdout w) (published w))
           end.

Definition sleep : M unit := ret tt.

(** [print] of several arguments: the arguments joined by a space. *)
Definition print (args : list string) : M unit :=
  fun w => (Ok tt, mkWorld (written w) (replies w) (stdout w ++ [String.concat " " args]) (published w)).

Definition publish (j : json) : M unit :=
  fun w => (Ok tt, mkWorld (written w) (replies w) (stdout w) (published w ++ [j])).

(** A [for] loop over a list whose iterations each yield one value, kept in
    order (the [results.append(...)] / [states.append(...)] pattern). *)
Fixpoint for_each {A} (l : list Z) (body : Z -> M A) : M (list A) :=
  match l with
  | [] => ret []
  | i :: l' => bindM (body i) (fun a => bindM (for_each l' body) (fun r => ret (a :: r)))
  end.

End IO.

Notation "'let!' x ':=' m 'in' k" := (IO.bindM m (fun x => k))
  (at level 200, x name, m at level 100, right associativity).
Notation "m ;; k" := (IO.bindM m (fun _ => k)) (at level 100, right associativity).

(** One request/response cycle: [ser.reset_input_buffer(); ser.write(frame);
    time.sleep(..); resp = ser.read(256)]. *)
Definition exchange (frame : pybytes) : IO.M pybytes :=
  IO.ser_reset_input_buffer ;; IO.ser_write frame ;; IO.sleep ;; IO.ser_read 256.

(** ** [modbus_mqtt_bridge_json.py] *)

Module JsonBridge.

Definition build_relay_command (device channel : Z) (action : string) : result pybytes :=
  if (channel <? 1) || (channel >? 8) then Err (ValueError "channel must be 1-8")
  else
    let* data :=
      (if String.eqb action "on" then Ok (1, 0)
       else if String.eqb action "off" then Ok (2, 0)
       else Err (ValueError "action must be 'on' or 'off'")) in
    let* frame := bytes_of_list [device; WRITE_REG; 0; channel; fst data; snd data] in
    let* crc := crc16 frame in
    Ok (frame ++ crc).

Definition build_read_input (device input_num : Z) : result pybytes :=
  let addr := 128 + input_num in
  let* frame := bytes_of_list
    [device; READ_REG; Z.land (Z.shiftr addr 8) 255; Z.land addr 255; 0; 1] in
  let* crc := crc16 frame in
  Ok (frame ++ crc).

Definition build_read_output (device output_num : Z) : result pybytes :=
  let* frame := bytes_of_list [device; READ_REG; 0; output_num; 0; 1] in
  let* crc := crc16 frame in
  Ok (frame ++ crc).

(** [("on" if resp and resp[4] == 1 else "off")] *)
Definition state_of_resp (resp : pybytes) : result string :=
  match resp with
  | [] => Ok "off"
  | _ => let* x := index resp 4 in Ok (if x =? 1 then "on" else "off")
  end.

(** The command dict after [data.get("cmd")] and its key lookups. *)
Inductive command :=
  | CmdOutput (channel : Z) (state : string)
  | CmdOutputAll (state : string)
  | CmdInput (channel : Z)
  | CmdStatus (target : string)
  | CmdUnknown.

Definition status_item (device_selected : Z) (target : string) (i : Z) : IO.M json :=
  let! frame := IO.lift (if String.eqb target "inputs"
                         then build_read_input device_selected i
                         else build_read_output device_selected i) in
  let! resp := exchange frame in
  let! st := IO.lift (state_of_resp resp) in
  IO.ret (JObj [("channel", JInt i); ("state", JStr st)]).

Definition output_all_item (device_selected : Z) (state : string) (i : Z) : IO.M json :=
  let! frame := IO.lift (build_relay_command device_selected i state) in
  let! resp := exchange frame in
  IO.ret (JObj [("channel", JInt i);
                ("response", match resp with [] => JNull | _ => JStr (hexdump resp) end)]).

Definition process_command (device_selected : Z) (c : command) : IO.M unit :=
  IO.try_except
    (match c with
     | CmdOutput ch state =>
         let! frame := IO.lift (build_relay_command device_selected ch state) in
         let! resp := exchange frame in
         IO.publish (JObj [("result", JStr "ok"); ("cmd", JStr "output");
                           ("channel", JInt ch); ("state", JStr state);
                           ("response", JStr (hexdump resp))])
     | CmdOutputAll state =>
         let! results := IO.for_each (range 1 9) (output_all_item device_selected state) in
         IO.publish (JObj [("result", JStr "ok"); ("cmd", JStr "output_all");
                           ("state", JStr state); ("outputs", JList results)])
     | CmdInput ch =>
         let! frame := IO.lift (build_read_input device_selected ch) in
         let! resp := exchange frame in
         let! st := IO.lift (state_of_resp resp) in
         IO.publish (JObj [("cmd", JStr "input"); ("input", JInt ch);
                           ("state", JStr st); ("raw", JStr (hexdump resp))])
     | CmdStatus target =>
         let! states := IO.for_each (range 1 9) (status_item device_selected target) in
         IO.publish (JObj [("cmd", JStr "status"); ("target", JStr target);
                           ("states", JList states)])
     | CmdUnknown =>
         IO.publish (JObj [("result", JStr "error"); ("message", JStr "Unknown command")])
     end)
    (fun e => IO.publish (JObj [("result", JStr "error"); ("message", JStr (exn_str e))])).

End JsonBridge.

(** ** [raw_modbus_test.py] (interactive command-line tester) *)

Module RawTest.

Definition build_relay_command (device channel : Z) (action : string) : IO.M pybytes :=
  let reg_hi := 0 in
  let reg_lo := channel in
  let! data := IO.lift
    (if String.eqb action "on" then Ok (1, 0)
     else if String.eqb action "off" then Ok (2, 0)
     else Err (ValueError "action must be 'on' or 'off'")) in
  if (channel >? 8) || (channel <? 1) then IO.lift (Err (ValueError "channel must be 1-8"))
  else
    let! frame_wo_crc := IO.lift
      (bytes_of_list [device; WRITE_REG; reg_hi; reg_lo; fst data; snd data]) in
    IO.print ["Frame without CRC:"; hexdump frame_wo_crc] ;;
    let! crc := IO.lift (crc16 frame_wo_crc) in
    IO.ret (frame_wo_crc ++ crc).

Definition build_read_input (device input_num : Z) : result pybytes :=
  let addr := 128 + input_num in
  let* frame_wo_crc := bytes_of_list
    [device; READ_REG; Z.land (Z.shiftr addr 8) 255; Z.land addr 255; 0; 1] in
  let* crc := crc16 frame_wo_crc in
  Ok (frame_wo_crc ++ crc).

Definition builst_read_output (device output_num : Z) : result pybytes :=
  let addr := output_num + 1 in
  let* frame_wo_crc := bytes_of_list
    [device; READ_REG; Z.land (Z.shiftr addr 8) 255; Z.land addr 255; 0; 1] in
  let* crc := crc16 frame_wo_crc in
  Ok (frame_wo_crc ++ crc).

(** A command line after [input(..).strip().lower()] and [cmd.split()]
    (with [int(parts[1])] already applied). *)
Inductive command :=
  | CliOut (ch : Z) (state : string)
  | CliOnAll
  | CliOffAll
  | CliIn (inp : Z)
  | CliStatusOut
  | CliStatusInp
  | CliInvalid.

(** The body of one [if size > 0: if resp[4] == 1: ... else: ...
    else: ...] report of the status loops, for channel [i]. *)
Definition report_state (label : string) (i : Z) (resp : pybytes) : IO.M unit :=
  if Nat.ltb 0 (List.length resp) then
    let! x := IO.lift (index resp 4) in
    if x =? 1 then IO.print [(label ++ " " ++ str_int i ++ " is ON")%string]
    else IO.print [(label ++ " " ++ str_int i ++ " is OFF")%string]
  else IO.print [(label ++ " " ++ str_int i ++ ": No response (timeout).")%string].

(** One pass of the [while True] loop of [main] on the line [line]. *)
Definition handle_command (device_selected : Z) (line : string) (c : command) : IO.M unit :=
  IO.print ["You typed: "; line] ;;
  match c with
  | CliOut ch state =>
      let! frame := build_relay_command device_selected ch state in
      let! resp := exchange frame in
      IO.print ["<- Response:"; hexdump resp]
  | CliOnAll =>
      let! _ := IO.for_each (range 1 9) (fun i =>
        let! frame := build_relay_command device_selected i "on" in
        let! resp := exchange frame in
        IO.print [("Channel " ++ str_int i ++ " ON response:")%string; hexdump resp]) in
      IO.ret tt
  | CliOffAll =>
      let! _ := IO.for_each (range 1 9) (fun i =>
        let! frame := build_relay_command device_selected i "off" in
        let! resp := exchange frame in
        IO.print [("Channel " ++ str_int i ++ " OFF response:")%string; hexdump resp]) in
      IO.ret tt
  | CliIn inp =>
      let! frame := IO.lift (build_read_input device_selected inp) in
      let! resp := exchange frame in
      if Nat.ltb 0 (List.length resp) then
        IO.print ["<- Response:"; hexdump resp] ;;
        let! x := IO.lift (index resp 4) in
        if x =? 1 then IO.print [("Input " ++ str_int inp ++ " is ON")%string]
        else IO.print [("Input " ++ str_int inp ++ " is OFF")%string]
      else IO.print ["<- No response (timeout)."]
  | CliStatusOut =>
      let! _ := IO.for_each (range 1 9) (fun i =>
        let! frame := IO.lift (builst_read_output device_selected i) in
        let! resp := exchange frame in
        report_state "Output" i resp) in
      IO.ret tt
  | CliStatusInp =>
      let! _ := IO.for_each (range 1 9) (fun i =>
        let! frame := IO.lift (build_read_input device_selected i) in
        let! resp := exchange frame in
        report_state "Input" i resp) in
      IO.ret tt
  | CliInvalid => IO.print ["Invalid command format."]
  end.

End RawTest.

(** ** [modbus_mqtt_bridge.py] (text commands over MQTT): frame builders *)

Module MqttBridge.

Definition build_relay_command (device channel : Z) (action : string) : IO.M pybytes :=
  let reg_hi := 0 in
  let reg_lo := channel in
  let! data := IO.lift
    (if String.eqb action "on" then Ok (1, 0)
     else if String.eqb action "off" then Ok (2, 0)
     else Err (ValueError "action must be 'on' or 'off'")) in
  if (channel >? 8) || (channel <? 1) then IO.lift (Err (ValueError "channel must be 1-8"))
  else
    let! frame_wo_crc := IO.lift
      (bytes_of_list [device; WRITE_REG; reg_hi; reg_lo; fst data; snd data]) in
    IO.print ["Frame without CRC:"; hexdump frame_wo_crc] ;;
    let! crc := IO.lift (crc16 frame_wo_crc) in
    IO.ret (frame_wo_crc ++ crc).

Definition builst_read_output (device output_num : Z) : result pybytes :=
  let addr := output_num in
  let* frame_wo_crc := bytes_of_list
    [device; READ_REG; Z.land (Z.shiftr addr 8) 255; Z.land addr 255; 0; 1] in
  let* crc := crc16 frame_wo_crc in
  Ok (frame_wo_crc ++ crc).

End MqttBridge.

(** A [for] loop over the items of a list, collecting one value per item. *)
Fixpoint for_in {X A} (l : list X) (body : X -> IO.M A) : IO.M (list A) :=
  match l with
  | [] => IO.ret []
  | x :: l' => IO.bindM (body x) (fun a => IO.bindM (for_in l' body) (fun r => IO.ret (a :: r)))
  end.

(** ** [raw_modbus_test.py]: the [main] loop and the example frames *)

Module RawTestMain.

Import RawTest.

(** The [if/elif] chain of the loop body on [cmd]: which branch is taken,
    with [int(parts[1])] evaluated where the branch does it. *)
Definition parse_command (cmd : string) : result command :=
  let parts := Str.split cmd in
  if Nat.eqb (List.length parts) 3 && String.eqb (nth 0 parts "") "out" then
    let* ch := Str.py_int (nth 1 parts "") in Ok (CliOut ch (nth 2 parts ""))
  else if String.eqb cmd "on all" then Ok CliOnAll
  else if String.eqb cmd "off all" then Ok CliOffAll
  else if Nat.eqb (List.length parts) 2 && String.eqb (nth 0 parts "") "in" then
    let* inp := Str.py_int (nth 1 parts "") in Ok (CliIn inp)
  else if String.eqb cmd "status out" then Ok CliStatusOut
  else if String.eqb cmd "status inp" then Ok CliStatusInp
  else Ok CliInvalid.

(** One pass of [while True:] for [cmd = input("Command> ").strip().lower()]:
    [false] on [break].  [print("You typed: ", cmd)] comes before the
    branch is chosen, so an [int()] failure raises after it. *)
Definition loop_body (device_selected : Z) (cmd : string) : IO.M bool :=
  if String.eqb cmd "exit" then IO.ret false
  else
    match parse_command cmd with
    | Ok c => handle_command device_selected cmd c ;; IO.ret true
    | Err e => IO.print ["You typed: "; cmd] ;; IO.lift (Err e)
    end.

(** The [for name, hexframe in EXAMPLES.items()] loop after the
    interactive loop. *)
Definition send_examples : IO.M (list unit) :=
  for_in EXAMPLES (fun item =>
    let '(name, hexframe) := item in
    let! data := IO.lift (hexstr_to_bytes hexframe) in
    IO.print [String (ascii_of_nat 10) "-> Sending example:"; name; hexdump data] ;;
    let! resp := exchange data in
    match resp with
    | [] => IO.print ["<- No response (timeout)."]
    | _ => IO.print ["<- Raw response:"; hexdump resp]
    end).

End RawTestMain.

(** ** [modbus_mqtt_bridge.py]: text commands over MQTT *)

Module MqttText.

Definition build_read_input (device input_num : Z) : result pybytes :=
  let addr := 128 + input_num in
  let* frame_wo_crc := bytes_of_list
    [device; READ_REG; Z.land (Z.shiftr addr 8) 255; Z.land addr 255; 0; 1] in
  let* crc := crc16 frame_wo_crc in
  Ok (frame_wo_crc ++ crc).

(** [print_pubish] for string arguments (every call passes strings,
    so the [isinstance(args[0], list)] branch is not taken): the text is
    published on the response topic, recorded as [JStr text], then
    printed. *)
Definition print_pubish (args : list string) : IO.M unit :=
  let text := String.concat " " args in
  IO.publish (JStr text) ;; IO.print ["Publishing message:"; text].

(** The initial content of [messages]. *)
Definition initial_messages (cmd : string) : list string :=
  if (String.eqb cmd "on all" || String.eqb cmd "off all" || Str.startswith cmd "out "
      || Str.startswith cmd "in " || Str.startswith cmd "status ")%bool
  then [("Processing command: " ++ cmd)%string] else [].

(** One iteration of the [status out] / [status inp] loops. *)
Definition status_message (i : Z) (resp : pybytes) : IO.M string :=
  if Nat.ltb 0 (List.length resp) then
    let! x := IO.lift (index resp 4) in
    if x =? 1 then IO.ret ("Input " ++ str_int i ++ " is ON")%string
    else IO.ret ("Input " ++ str_int i ++ " is OFF")%string
  else IO.ret ("Input " ++ str_int i ++ ": No response (timeout)")%string.

Definition process_command (device_selected : Z) (cmd : string) : IO.M unit :=
  let messages := initial_messages cmd in
  if String.eqb cmd "exit" then
    print_pubish ["Exiting program as requested."] ;; IO.lift (Err (SystemExit 0))
  else
  print_pubish ["You typed: "; cmd] ;;
  let parts := Str.split cmd in
  if Nat.eqb (List.length parts) 3 && String.eqb (nth 0 parts "") "out" then
    let! ch := IO.lift (Str.py_int (nth 1 parts "")) in
    let state := nth 2 parts "" in
    IO.print [str_int device_selected; str_int ch; state] ;;
    IO.sleep ;;
    let! frame := MqttBridge.build_relay_command device_selected ch state in
    let! resp := exchange frame in
    print_pubish ["<- Response:"; hexdump resp]
  else if String.eqb cmd "on all" then
    let! lines := IO.for_each (range 1 9) (fun i =>
      let! frame := MqttBridge.build_relay_command device_selected i "on" in
      let! resp := exchange frame in
      if Nat.ltb 0 (List.length resp)
      then IO.ret ("Channel " ++ str_int i ++ " ON response: " ++ hexdump resp)%string
      else IO.ret ("Channel " ++ str_int i ++ " No response (timeout)")%string) in
    print_pubish [Str.join_lines (messages ++ lines)]
  else if String.eqb cmd "off all" then
    let! lines := IO.for_each (range 1 9) (fun i =>
      let! frame := MqttBridge.build_relay_command device_selected i "off" in
      let! resp := exchange frame in
      if Nat.ltb 0 (List.length resp)
      then IO.ret ("Channel " ++ str_int i ++ " OFF response: " ++ hexdump resp)%string
      else IO.ret ("Channel " ++ str_int i ++ ": No response (timeout)")%string) in
    print_pubish [Str.join_lines (messages ++ lines)]
  else if Nat.eqb (List.length parts) 2 && String.eqb (nth 0 parts "") "in" then
    let! inp := IO.lift (Str.py_int (nth 1 parts "")) in
    let! frame := IO.lift (build_read_input device_selected inp) in
    let! resp := exchange frame in
    if Nat.ltb 0 (List.length resp) then
      let! x := IO.lift (index resp 4) in
      print_pubish [("Input " ++ str_int inp ++ " is " ++ (if Z.eqb x 1 then "ON" else "OFF"))%string]
    else print_pubish ["<- No response (timeout)."]
  else if String.eqb cmd "status out" then
    let! lines := IO.for_each (range 1 9) (fun i =>
      let! frame := IO.lift (MqttBridge.builst_read_output device_selected i) in
      let! resp := exchange frame in
      status_message i resp) in
    print_pubish [Str.join_lines (messages ++ lines)]
  else if String.eqb cmd "status inp" then
    let! lines := IO.for_each (range 1 9) (fun i =>
      let! frame := IO.lift (build_read_input device_selected i) in
      let! resp := exchange frame in
      status_message i resp) in
    print_pubish [Str.join_lines (messages ++ lines)]
  else print_pubish ["Invalid command format."].

(** [on_message] for the payload text [payload] ([msg.payload.decode()]).
    The replies to "ping" and "bye" are assigned to [reply] but never
    sent (the publish is commented out). *)
Definition on_message (device_selected : Z) (payload : string) : IO.M unit :=
  let text := Str.strip payload in
  let incoming := Str.lower text in
  IO.print [("Received: " ++ text)%string] ;;
  if Str.startswith incoming "from-subscriber:" then IO.ret tt
  else if String.eqb incoming "ping" then IO.ret tt
  else if String.eqb incoming "bye" then IO.ret tt
  else process_command device_selected incoming.

End MqttText.

(** ** Expected outcomes of the poll loops

    What the loops above report for a reply [r] that does not make them
    raise (an empty reply or one of at least five bytes). *)

(** The ["state"] the JSON bridge reports: ["on"] iff byte 4 is 1. *)
Definition read_state_of (r : pybytes) : string :=
  match nth_error r 4 with
  | Some b => if to_Z b =? 1 then "on" else "off"
  | None => "off"
  end.

(** The frame the JSON bridge's status poll sends for channel [i]. *)
Definition status_frame (device : Z) (target : string) (i : Z) : pybytes :=
  if String.eqb target "inputs" then frame_with_crc [device; 3; 0; 128 + i; 0; 1]
  else frame_with_crc [device; 3; 0; i; 0; 1].

(** The line the command-line tester prints for channel [i]. *)
Definition cli_status_line (label : string) (i : Z) (r : pybytes) : string :=
  match r with
  | [] => (label ++ " " ++ str_int i ++ ": No response (timeout).")%string
  | _ => if String.eqb (read_state_of r) "on"
         then (label ++ " " ++ str_int i ++ " is ON")%string
         else (label ++ " " ++ str_int i ++ " is OFF")%string
  end.

(** The line the MQTT text bridge's status loops add for channel [i]. *)
Definition mqtt_status_line (i : Z) (r : pybytes) : string :=
  match r with
  | [] => ("Input " ++ str_int i ++ ": No response (timeout)")%string
  | _ => if String.eqb (read_state_of r) "on" then ("Input " ++ str_int i ++ " is ON")%string
         else ("Input " ++ str_int i ++ " is OFF")%string
  end.

(** The hexadecimal digits of [b], in order, without separators. *)
Definition hex_chars (b : pybytes) : string := fold_right (fun x acc => (hex2 x ++ acc)%string) "" b.

(** The digit character of [d < 10] and the value of a digit sequence. *)
Definition digit_char (d : nat) : ascii := ascii_of_nat (48 + d).

Definition digits_value (ds : list nat) : Z :=
  fold_left (fun v d => 10 * v + d) (map Z.of_nat ds) 0.

(** A computation that neither prints nor publishes. *)
Definition quiet {A} (m : IO.M A) : Prop :=
  forall w, stdout (snd (m w)) = stdout w /\ published (snd (m w)) = published w.

(** A computation that prints nothing and publishes exactly one payload
    when it returns, none when it raises. *)
Definition publishes_once (m : IO.M unit) : Prop :=
  forall w, stdout (snd (m w)) = stdout w /\
    match fst (m w) with
    | Ok _ => exists j, published (snd (m w)) = published w ++ [j]
    | Err _ => published (snd (m w)) = published w
    end.

(** A non-empty string without whitespace: one item of [s.split()]. *)
Definition is_word (s : string) : bool :=
  negb (String.eqb s "") && forallb (fun c => negb (Str.isspace c)) (list_ascii_of_string s).

(** The line the MQTT text bridge's [on all] / [off all] loops add for
    channel [i] ([onw] after a reply, [tw] on a timeout). *)
Definition channel_line (onw tw : string) (i : Z) (r : pybytes) : string :=
  match r with
  | [] => ("Channel " ++ str_int i ++ tw)%string
  | _ => ("Channel " ++ str_int i ++ onw ++ hexdump (firstn 256 r))%string
  end.

(** The two lines the command-line tester's example loop prints for an
    example. *)
Definition example_lines (name : string) (data resp : pybytes) : list string :=
  [String.concat " " [String (ascii_of_nat 10) "-> Sending example:"; name; hexdump data];
   match resp with
   | [] => "<- No response (timeout)."
   | _ => String.concat " " ["<- Raw response:"; hexdump resp]
   end].

(* ================================================================== *)
(** * Proofs *)

(** ** Byte conversions *)

Lemma to_Z_range (b : byte) : 0 <= to_Z b < 256.
Proof.
  unfold to_Z. pose proof (Byte.to_N_bounded b). lia.
Qed.

Lemma to_Z_byte_of_Z (z : Z) : 0 <= z < 256 -> to_Z (byte_of_Z z) = z.
Proof.
  intros Hz. unfold byte_of_Z, to_Z.
  destruct (Byte.of_N (Z.to_N z)) as [b|] eqn:E.
  - apply Byte.to_of_N in E. rewrite E. lia.
  - apply Byte.of_N_None_iff in E. lia.
Qed.

Lemma byte_of_Z_to_Z (b : byte) : byte_of_Z (to_Z b) = b.
Proof.
  unfold byte_of_Z, to_Z. rewrite N2Z.id, Byte.of_to_N. reflexivity.
Qed.

(** ** Bounds of the CRC register *)

Lemma lxor_lt_pow2 (n a b : Z) :
  0 < n -> 0 <= a < 2 ^ n -> 0 <= b < 2 ^ n -> 0 <= Z.lxor a b < 2 ^ n.
Proof.
  intros Hn Ha Hb.
  assert (Hnn : 0 <= Z.lxor a b) by (apply Z.lxor_nonneg; lia).
  split; [exact Hnn|].
  destruct (Z.eq_dec (Z.lxor a b) 0) as [E|E].
  - rewrite E. apply Z.pow_pos_nonneg; lia.
  - apply Z.log2_lt_pow2; [lia|].
    eapply Z.le_lt_trans; [apply Z.log2_lxor; lia|].
    apply Z.max_lub_lt.
    + destruct (Z.eq_dec a 0) as [->|Ea]; [simpl; lia|].
      apply Z.log2_lt_pow2; lia.
    + destruct (Z.eq_dec b 0) as [->|Eb]; [simpl; lia|].
      apply Z.log2_lt_pow2; lia.
Qed.

Lemma crc_shift_range (c : Z) : 0 <= c < 65536 -> 0 <= crc_shift c < 65536.
Proof.
  intros Hc.
  assert (Hs : 0 <= Z.shiftr c 1 < 65536).
  { rewrite Z.shiftr_div_pow2 by lia. simpl Z.pow.
    split; [apply Z.div_pos; lia | apply Z.div_lt_upper_bound; lia]. }
  unfold crc_shift. destruct (negb _); [|exact Hs].
  apply (lxor_lt_pow2 16); simpl; lia.
Qed.

Lemma crc_inner_range (c : Z) : 0 <= c < 65536 -> 0 <= crc_inner c < 65536.
Proof.
  intros Hc. unfold crc_inner.
  generalize 8%nat as k. intros k.
  induction k as [|k IH]; simpl; [exact Hc|].
  apply crc_shift_range; exact IH.
Qed.

Lemma crc16_fold_range (data : pybytes) (c : Z) :
  0 <= c < 65536 ->
  0 <= fold_left (fun crc b => crc_inner (Z.lxor crc (to_Z b))) data c < 65536.
Proof.
  revert c. induction data as [|b data IH]; intros c Hc; simpl; [exact Hc|].
  apply IH, crc_inner_range.
  pose proof (to_Z_range b).
  apply (lxor_lt_pow2 16); simpl; lia.
Qed.

Lemma crc16_reg_range (data : pybytes) : 0 <= crc16_reg data < 65536.
Proof. apply crc16_fold_range; lia. Qed.

Lemma to_bytes_2_little_le16 (n : Z) :
  0 <= n < 65536 -> to_bytes_2_little n = Ok (le16 n).
Proof.
  intros Hn. unfold to_bytes_2_little, le16.
  replace ((0 <=? n) && (n <? 65536))%bool with true
    by (symmetry; apply andb_true_iff; split; [apply Z.leb_le | apply Z.ltb_lt]; lia).
  change 255 with (Z.ones 8).
  rewrite Z.land_ones by lia.
  rewrite Z.shiftr_div_pow2 by lia. reflexivity.
Qed.

(** ** The byte-wise loop against the bit-serial reference *)

Lemma land_1_testbit (x : Z) : (Z.land x 1 =? 0) = negb (Z.testbit x 0).
Proof.
  change 1 with (Z.ones 1) at 1. rewrite Z.land_ones by lia.
  rewrite Zmod_odd, Z.bit0_odd. destruct (Z.odd x); reflexivity.
Qed.

Lemma crc_shift_testbit (x : Z) :
  crc_shift x = if Z.testbit x 0 then Z.lxor (Z.shiftr x 1) 40961 else Z.shiftr x 1.
Proof.
  unfold crc_shift. rewrite land_1_testbit, negb_involutive. reflexivity.
Qed.

(** Shifting a register that still carries the unconsumed input bits [r]
    is one bit-serial step followed by shifting [r]. *)
Lemma crc_shift_lxor (s r : Z) :
  crc_shift (Z.lxor s r) =
  Z.lxor (modbus_bit_step s (Z.testbit r 0)) (Z.shiftr r 1).
Proof.
  rewrite crc_shift_testbit. unfold modbus_bit_step.
  rewrite Z.lxor_spec, Z.shiftr_lxor.
  destruct (xorb (Z.testbit s 0) (Z.testbit r 0)).
  - rewrite !Z.lxor_assoc, (Z.lxor_comm (Z.shiftr r 1) 40961). reflexivity.
  - reflexivity.
Qed.

Lemma crc_iter_bits (c b : Z) (k : nat) :
  0 <= b ->
  Nat.iter k crc_shift (Z.lxor c b) =
  Z.lxor (fold_left (fun r i => modbus_bit_step r (Z.testbit b (Z.of_nat i)))
            (seq 0 k) c)
         (Z.shiftr b (Z.of_nat k)).
Proof.
  intros Hb. induction k as [|k IH].
  - simpl. rewrite Z.shiftr_0_r. reflexivity.
  - rewrite seq_S, fold_left_app. simpl Nat.iter. rewrite IH, crc_shift_lxor.
    simpl fold_left. f_equal.
    + rewrite Z.shiftr_spec by lia. reflexivity.
    + rewrite Z.shiftr_shiftr by lia. f_equal. lia.
Qed.

Lemma crc_inner_byte_step (c b : Z) :
  0 <= b < 256 -> crc_inner (Z.lxor c b) = modbus_byte_step c b.
Proof.
  intros Hb. unfold crc_inner, modbus_byte_step.
  rewrite crc_iter_bits by lia.
  replace (Z.shiftr b (Z.of_nat 8)) with 0.
  - apply Z.lxor_0_r.
  - rewrite Z.shiftr_div_pow2 by lia. symmetry. apply Z.div_small. simpl. lia.
Qed.

Lemma crc16_reg_reference (data : pybytes) :
  crc16_reg data = modbus_crc_reference (map to_Z data).
Proof.
  unfold crc16_reg, modbus_crc_reference. generalize 65535.
  induction data as [|b data IH]; intros c; simpl; [reflexivity|].
  rewrite crc_inner_byte_step by apply to_Z_range. apply IH.
Qed.

Lemma crc_iter_range (c : Z) (k : nat) :
  0 <= c < 65536 -> 0 <= Nat.iter k crc_shift c < 65536.
Proof.
  intros Hc. induction k as [|k IH]; simpl; [exact Hc|].
  apply crc_shift_range; exact IH.
Qed.

Lemma crc16_trace_from_range (c : Z) (data : pybytes) :
  0 <= c < 65536 -> Forall (fun x => 0 <= x < 65536) (crc16_trace_from c data).
Proof.
  revert c. induction data as [|b data IH]; intros c Hc; cbn [crc16_trace_from]; [constructor|].
  assert (Hx : 0 <= Z.lxor c (to_Z b) < 65536).
  { pose proof (to_Z_range b). apply (lxor_lt_pow2 16); simpl; lia. }
  constructor; [exact Hx|].
  apply Forall_app. split.
  - unfold crc_inner_trace. apply Forall_forall. intros y Hy.
    apply in_map_iff in Hy. destruct Hy as [k [<- _]].
    apply crc_iter_range; exact Hx.
  - apply IH, crc_inner_range; exact Hx.
Qed.

(** ** Frame construction *)

Definition is_byte (x : Z) : Prop := 0 <= x < 256.

Lemma bytes_of_list_ok (xs : list Z) :
  Forall is_byte xs -> bytes_of_list xs = Ok (map byte_of_Z xs).
Proof.
  induction 1 as [|x xs Hx _ IH]; simpl; [reflexivity|].
  unfold is_byte in Hx.
  replace ((0 <=? x) && (x <? 256))%bool with true
    by (symmetry; apply andb_true_iff; split; [apply Z.leb_le | apply Z.ltb_lt]; lia).
  rewrite IH. reflexivity.
Qed.

Lemma bytes_of_list_err (xs : list Z) :
  ~ Forall is_byte xs ->
  bytes_of_list xs = Err (ValueError "bytes must be in range(0, 256)").
Proof.
  induction xs as [|x xs IH]; intros H; simpl.
  - exfalso. apply H. constructor.
  - destruct ((0 <=? x) && (x <? 256))%bool eqn:E; [|reflexivity].
    apply andb_true_iff in E. destruct E as [E1 E2].
    apply Z.leb_le in E1. apply Z.ltb_lt in E2.
    rewrite IH; [reflexivity|].
    intros Hxs. apply H. constructor; [unfold is_byte; lia | exact Hxs].
Qed.

Lemma crc16_ok (frame : pybytes) : crc16 frame = Ok (le16 (crc16_reg frame)).
Proof. apply to_bytes_2_little_le16, crc16_reg_range. Qed.

Lemma append_crc_ok (body : list Z) :
  Forall is_byte body ->
  (let* frame := bytes_of_list body in let* crc := crc16 frame in Ok (frame ++ crc))
  = Ok (frame_with_crc body).
Proof.
  intros H. rewrite bytes_of_list_ok by exact H. simpl. rewrite crc16_ok. reflexivity.
Qed.

Lemma land_255_range (x : Z) : is_byte (Z.land x 255).
Proof.
  change 255 with (Z.ones 8). rewrite Z.land_ones by lia.
  unfold is_byte. apply Z.mod_pos_bound. lia.
Qed.

Lemma land_255_small (x : Z) : 0 <= x < 256 -> Z.land x 255 = x.
Proof.
  intros Hx. change 255 with (Z.ones 8). rewrite Z.land_ones by lia.
  apply Z.mod_small. simpl. lia.
Qed.

Lemma shiftr_8_small (x : Z) : 0 <= x < 256 -> Z.shiftr x 8 = 0.
Proof.
  intros Hx. rewrite Z.shiftr_div_pow2 by lia. apply Z.div_small. simpl. lia.
Qed.

(** The register address bytes [(addr >> 8) & 0xFF, addr & 0xFF] of an
    address below 256. *)
Lemma addr_bytes_small (addr : Z) :
  0 <= addr < 256 -> Z.land (Z.shiftr addr 8) 255 = 0 /\ Z.land addr 255 = addr.
Proof.
  intros H. rewrite shiftr_8_small by exact H. split; [reflexivity|].
  apply land_255_small, H.
Qed.

Ltac byte_bounds :=
  repeat constructor; unfold is_byte;
  try (unfold action_hi; destruct (String.eqb _ _)); try lia; apply land_255_range.

Lemma guard_false (ch : Z) : 1 <= ch <= 8 -> ((ch <? 1) || (ch >? 8))%bool = false.
Proof.
  intros H. apply orb_false_iff. rewrite Z.gtb_ltb. split; apply Z.ltb_ge; lia.
Qed.

Lemma guard_false' (ch : Z) : 1 <= ch <= 8 -> ((ch >? 8) || (ch <? 1))%bool = false.
Proof. intros H. rewrite orb_comm. apply guard_false, H. Qed.

Lemma guard_true (ch : Z) : ~ (1 <= ch <= 8) -> ((ch <? 1) || (ch >? 8))%bool = true.
Proof.
  intros H. apply orb_true_iff.
  destruct (Z.ltb_spec ch 1); [left; reflexivity|].
  right. rewrite Z.gtb_ltb. apply Z.ltb_lt. lia.
Qed.

Lemma guard_true' (ch : Z) : ~ (1 <= ch <= 8) -> ((ch >? 8) || (ch <? 1))%bool = true.
Proof. intros H. rewrite orb_comm. apply guard_true, H. Qed.

Lemma json_relay_ok (device channel : Z) (action : string) :
  0 <= device < 256 -> 1 <= channel <= 8 -> action = "on" \/ action = "off" ->
  JsonBridge.build_relay_command device channel action =
  Ok (frame_with_crc [device; 6; 0; channel; action_hi action; 0]).
Proof.
  intros Hd Hc Ha. unfold JsonBridge.build_relay_command.
  rewrite guard_false by exact Hc.
  destruct Ha as [-> | ->].
  - change (action_hi "on") with 1.
    rewrite <- (append_crc_ok [device; 6; 0; channel; 1; 0]); [reflexivity|byte_bounds].
  - change (action_hi "off") with 2.
    rewrite <- (append_crc_ok [device; 6; 0; channel; 2; 0]); [reflexivity|byte_bounds].
Qed.

Lemma json_read_input_ok (device input_num : Z) :
  0 <= device < 256 ->
  JsonBridge.build_read_input device input_num =
  Ok (frame_with_crc [device; 3; Z.land (Z.shiftr (128 + input_num) 8) 255;
                      Z.land (128 + input_num) 255; 0; 1]).
Proof. intros Hd. apply append_crc_ok. byte_bounds. Qed.

Lemma raw_read_input_ok (device input_num : Z) :
  0 <= device < 256 ->
  RawTest.build_read_input device input_num =
  Ok (frame_with_crc [device; 3; Z.land (Z.shiftr (128 + input_num) 8) 255;
                      Z.land (128 + input_num) 255; 0; 1]).
Proof. intros Hd. apply append_crc_ok. byte_bounds. Qed.

Lemma frame_with_crc_parts (body : list Z) :
  List.length body = 6%nat ->
  List.length (frame_with_crc body) = 8%nat /\
  firstn 6 (frame_with_crc body) = map byte_of_Z body /\
  crc16 (firstn 6 (frame_with_crc body)) = Ok (skipn 6 (frame_with_crc body)).
Proof.
  intros Hl. unfold frame_with_crc.
  do 6 (destruct body as [|? body]; [discriminate|]).
  destruct body; [|discriminate].
  cbn [map firstn skipn app List.length]. rewrite crc16_ok. auto.
Qed.

Lemma map_to_Z_byte_of_Z (xs : list Z) :
  Forall is_byte xs -> map to_Z (map byte_of_Z xs) = xs.
Proof.
  induction 1 as [|x xs Hx _ IH]; simpl; [reflexivity|].
  rewrite to_Z_byte_of_Z by exact Hx. rewrite IH. reflexivity.
Qed.

Lemma raw_relay_ok (device channel : Z) (action : string) (w : world) :
  0 <= device < 256 -> 1 <= channel <= 8 -> action = "on" \/ action = "off" ->
  let body := [device; 6; 0; channel; action_hi action; 0] in
  RawTest.build_relay_command device channel action w =
  (Ok (frame_with_crc body),
   print_world w [String.concat " " ["Frame without CRC:"; hexdump (map byte_of_Z body)]]).
Proof.
  intros Hd Hc Ha body.
  assert (Hb : Forall is_byte body) by (subst body; destruct Ha as [-> | ->]; byte_bounds).
  unfold RawTest.build_relay_command, IO.bindM, IO.lift.
  assert (Hdata : (if String.eqb action "on" then Ok (1, 0)
                   else if String.eqb action "off" then Ok (2, 0)
                   else Err (ValueError "action must be 'on' or 'off'"))
                  = Ok (action_hi action, 0)) by (destruct Ha as [-> | ->]; reflexivity).
  rewrite Hdata, guard_false' by exact Hc.
  cbn [fst snd]. fold body. rewrite bytes_of_list_ok by exact Hb.
  unfold IO.print. rewrite crc16_ok. reflexivity.
Qed.

Lemma mqtt_relay_ok (device channel : Z) (action : string) (w : world) :
  0 <= device < 256 -> 1 <= channel <= 8 -> action = "on" \/ action = "off" ->
  let body := [device; 6; 0; channel; action_hi action; 0] in
  MqttBridge.build_relay_command device channel action w =
  (Ok (frame_with_crc body),
   print_world w [String.concat " " ["Frame without CRC:"; hexdump (map byte_of_Z body)]]).
Proof.
  intros Hd Hc Ha body.
  assert (Hb : Forall is_byte body) by (subst body; destruct Ha as [-> | ->]; byte_bounds).
  unfold MqttBridge.build_relay_command, IO.bindM, IO.lift.
  assert (Hdata : (if String.eqb action "on" then Ok (1, 0)
                   else if String.eqb action "off" then Ok (2, 0)
                   else Err (ValueError "action must be 'on' or 'off'"))
                  = Ok (action_hi action, 0)) by (destruct Ha as [-> | ->]; reflexivity).
  rewrite Hdata, guard_false' by exact Hc.
  cbn [fst snd]. fold body. rewrite bytes_of_list_ok by exact Hb.
  unfold IO.print. rewrite crc16_ok. reflexivity.
Qed.

Lemma read_output_bodies (device ch : Z) :
  0 <= device < 256 -> 1 <= ch <= 8 ->
  JsonBridge.build_read_output device ch = Ok (frame_with_crc [device; 3; 0; ch; 0; 1]) /\
  RawTest.builst_read_output device ch = Ok (frame_with_crc [device; 3; 0; ch + 1; 0; 1]) /\
  MqttBridge.builst_read_output device ch = Ok (frame_with_crc [device; 3; 0; ch; 0; 1]).
Proof.
  intros Hd Hc. split; [|split].
  - apply append_crc_ok. byte_bounds.
  - unfold RawTest.builst_read_output.
    destruct (addr_bytes_small (ch + 1)) as [-> ->]; [lia|].
    apply append_crc_ok. byte_bounds.
  - unfold MqttBridge.builst_read_output.
    destruct (addr_bytes_small ch) as [-> ->]; [lia|].
    apply append_crc_ok. byte_bounds.
Qed.

Lemma read_output_bad_device (device ch : Z) :
  ~ (0 <= device < 256) ->
  JsonBridge.build_read_output device ch = Err (ValueError "bytes must be in range(0, 256)") /\
  RawTest.builst_read_output device ch = Err (ValueError "bytes must be in range(0, 256)") /\
  MqttBridge.builst_read_output device ch = Err (ValueError "bytes must be in range(0, 256)").
Proof.
  intros Hd.
  assert (Hn : forall l, ~ Forall is_byte (device :: l))
    by (intros l Hl; inversion Hl; contradiction).
  unfold JsonBridge.build_read_output, RawTest.builst_read_output,
    MqttBridge.builst_read_output.
  rewrite !bytes_of_list_err by apply Hn. repeat split.
Qed.

(* ------------------------------------------------------------------ *)
(** ** Claims *)

(** C1: [crc16] is the Modbus CRC16: on every input it returns, as two
    little-endian bytes, the register of the bit-serial Modbus CRC
    (polynomial 0xA001, initial 0xFFFF, eight LSB-first bit steps per byte);
    on the device manual's bodies [01 06 00 01 01 00], [01 06 00 01 02 00]
    and [01 03 00 01 00 01] it returns [D9 9A], [D9 6A] and [D5 CA]. *)
Theorem crc16_is_modbus_crc (data : pybytes) :
  crc16 data = Ok (le16 (modbus_crc_reference (map to_Z data))) /\
  crc16 [Byte.x01; Byte.x06; Byte.x00; Byte.x01; Byte.x01; Byte.x00] = Ok [Byte.xd9; Byte.x9a] /\
  crc16 [Byte.x01; Byte.x06; Byte.x00; Byte.x01; Byte.x02; Byte.x00] = Ok [Byte.xd9; Byte.x6a] /\
  crc16 [Byte.x01; Byte.x03; Byte.x00; Byte.x01; Byte.x00; Byte.x01] = Ok [Byte.xd5; Byte.xca].
Proof.
  split; [|repeat split; vm_compute; reflexivity].
  rewrite crc16_ok, crc16_reg_reference. reflexivity.
Qed.

(** C10: for every input, every value the [crc] variable takes during
    [crc16] (after each [^=] and after each shift step) lies in
    [0, 2^16), and [crc16] returns exactly two bytes (the [to_bytes(2, ..)]
    conversion never raises). *)
Theorem crc16_register_bounded (data : pybytes) :
  Forall (fun x => 0 <= x < 65536) (crc16_trace data) /\
  exists lo hi, crc16 data = Ok [lo; hi].
Proof.
  split.
  - unfold crc16_trace. constructor; [lia|]. apply crc16_trace_from_range. lia.
  - rewrite crc16_ok. unfold le16. eauto.
Qed.

(** C2: for every device in [1, 247], channel in [1, 8] and action "on" or
    "off", [build_relay_command] (in the JSON bridge and in the command-line
    tester alike) returns an 8-byte frame whose first six bytes are
    [device, 0x06, 0x00, channel, 0x01 or 0x02, 0x00] and whose last two
    bytes are [crc16] of the first six; for device 1, channel 1, "on" the
    frame is [01 06 00 01 01 00 D9 9A]. *)
Theorem build_relay_command_frame (device channel : Z) (action : string) :
  1 <= device <= 247 -> 1 <= channel <= 8 -> action = "on" \/ action = "off" ->
  (exists frame,
     JsonBridge.build_relay_command device channel action = Ok frame /\
     (forall w, fst (RawTest.build_relay_command device channel action w) = Ok frame) /\
     List.length frame = 8%nat /\
     map to_Z (firstn 6 frame) =
       [device; 6; 0; channel; (if String.eqb action "on" then 1 else 2); 0] /\
     crc16 (firstn 6 frame) = Ok (skipn 6 frame)) /\
  JsonBridge.build_relay_command 1 1 "on" =
    Ok [Byte.x01; Byte.x06; Byte.x00; Byte.x01; Byte.x01; Byte.x00; Byte.xd9; Byte.x9a].
Proof.
  intros Hd Hc Ha. split; [|vm_compute; reflexivity].
  set (body := [device; 6; 0; channel; action_hi action; 0]).
  assert (Hb : Forall is_byte body) by (subst body; byte_bounds).
  destruct (frame_with_crc_parts body) as (Hlen & Hfirst & Hcrc); [reflexivity|].
  exists (frame_with_crc body). split; [|split; [|split; [|split]]].
  - apply json_relay_ok; [lia | exact Hc | exact Ha].
  - intros w. rewrite raw_relay_ok by (lia || exact Hc || exact Ha). reflexivity.
  - exact Hlen.
  - rewrite Hfirst, map_to_Z_byte_of_Z by exact Hb. reflexivity.
  - exact Hcrc.
Qed.

(** Witness of C2 at device 1, channel 3, action "off". *)
Lemma build_relay_command_frame_witness :
  (1 <= 1 <= 247 /\ 1 <= 3 <= 8 /\ ("off" = "on" \/ "off" = "off")) /\
  ((exists frame,
     JsonBridge.build_relay_command 1 3 "off" = Ok frame /\
     (forall w, fst (RawTest.build_relay_command 1 3 "off" w) = Ok frame) /\
     List.length frame = 8%nat /\
     map to_Z (firstn 6 frame) =
       [1; 6; 0; 3; (if String.eqb "off" "on" then 1 else 2); 0] /\
     crc16 (firstn 6 frame) = Ok (skipn 6 frame)) /\
   JsonBridge.build_relay_command 1 1 "on" =
    Ok [Byte.x01; Byte.x06; Byte.x00; Byte.x01; Byte.x01; Byte.x00; Byte.xd9; Byte.x9a]).
Proof.
  split; [split; [lia | split; [lia | right; reflexivity]]|].
  apply (build_relay_command_frame 1 3 "off"); [lia | lia | right; reflexivity].
Defined.

(** C3: the output-status frame builders differ only in the register
    address: for every device and every channel [ch] in [1, 8], the JSON
    bridge's [build_read_output] sends [device, 0x03, 0x00, ch, 0x00, 0x01]
    and the command-line tester's [builst_read_output] sends
    [device, 0x03, 0x00, ch + 1, 0x00, 0x01], each followed by its CRC
    (the MQTT text bridge's [builst_read_output] agrees with the JSON
    bridge); a device id that is not a byte makes all of them raise the
    same [ValueError]. *)
Theorem read_output_register_address (device ch : Z) :
  1 <= ch <= 8 ->
  (0 <= device < 256 ->
     JsonBridge.build_read_output device ch = Ok (frame_with_crc [device; 3; 0; ch; 0; 1]) /\
     RawTest.builst_read_output device ch = Ok (frame_with_crc [device; 3; 0; ch + 1; 0; 1]) /\
     MqttBridge.builst_read_output device ch = JsonBridge.build_read_output device ch) /\
  (~ (0 <= device < 256) ->
     JsonBridge.build_read_output device ch = Err (ValueError "bytes must be in range(0, 256)") /\
     RawTest.builst_read_output device ch = JsonBridge.build_read_output device ch).
Proof.
  intros Hc. split; intros Hd.
  - destruct (read_output_bodies device ch Hd Hc) as (H1 & H2 & H3).
    rewrite H1, H2, H3. repeat split.
  - destruct (read_output_bad_device device ch Hd) as (H1 & H2 & _).
    rewrite H1, H2. repeat split.
Qed.

(** Witness of C3 at device 1, channel 1. *)
Lemma read_output_register_address_witness :
  1 <= 1 <= 8 /\
  JsonBridge.build_read_output 1 1 = Ok (frame_with_crc [1; 3; 0; 1; 0; 1]) /\
  RawTest.builst_read_output 1 1 = Ok (frame_with_crc [1; 3; 0; 2; 0; 1]).
Proof.
  split; [lia|].
  destruct (read_output_register_address 1 1) as [H _]; [lia|].
  destruct H as (H1 & H2 & _); [lia|]. split; [exact H1 | exact H2].
Defined.

(** ** Serial exchanges and loops *)

Lemma exchange_step (frame r : pybytes) (ws rs : list pybytes) out pub :
  exchange frame (mkWorld ws (r :: rs) out pub) =
  (Ok (firstn 256 r), mkWorld (ws ++ [frame]) rs out pub).
Proof. reflexivity. Qed.

Lemma nth_error_firstn_4 (n : nat) (l : pybytes) :
  (4 < n)%nat -> nth_error (firstn n l) 4 = nth_error l 4.
Proof.
  intros H. do 5 (destruct n as [|n]; [lia|]).
  do 5 (destruct l as [|? l]; [reflexivity|]). reflexivity.
Qed.

Lemma firstn_256_empty_iff (r : pybytes) : firstn 256 r = [] <-> r = [].
Proof. destruct r; simpl; split; congruence. Qed.

Lemma read_state_of_firstn (r : pybytes) :
  read_state_of (firstn 256 r) = read_state_of r.
Proof. unfold read_state_of. rewrite nth_error_firstn_4 by lia. reflexivity. Qed.

(** A reply that does not make [resp[4]] raise. *)
Definition decodable (r : pybytes) : Prop := r = [] \/ (5 <= List.length r)%nat.

Lemma decodable_firstn (r : pybytes) : decodable r -> decodable (firstn 256 r).
Proof.
  intros [-> | H]; [left; reflexivity|right].
  rewrite length_firstn. lia.
Qed.

Lemma json_state_of_resp_decodable (r : pybytes) :
  decodable r -> JsonBridge.state_of_resp r = Ok (read_state_of r).
Proof.
  intros [-> | H]; [reflexivity|].
  unfold JsonBridge.state_of_resp, read_state_of, index.
  destruct (nth_error r 4) as [b|] eqn:E.
  - destruct r; [simpl in H; lia | reflexivity].
  - apply nth_error_None in E. lia.
Qed.

Lemma bindM_err {A B} (m : IO.M A) (k : A -> IO.M B) (w : world) (e : exn) (w' : world) :
  m w = (Err e, w') -> IO.bindM m k w = (Err e, w').
Proof. intros H. unfold IO.bindM. rewrite H. reflexivity. Qed.

Lemma bindM_ok {A B} (m : IO.M A) (k : A -> IO.M B) (w : world) (a : A) (w' : world) :
  m w = (Ok a, w') -> IO.bindM m k w = k a w'.
Proof. intros H. unfold IO.bindM. rewrite H. reflexivity. Qed.

Lemma for_each_cons_err {A} (i : Z) (l : list Z) (body : Z -> IO.M A) w e w' :
  body i w = (Err e, w') -> IO.for_each (i :: l) body w = (Err e, w').
Proof. intros H. simpl. apply bindM_err, H. Qed.

Section ForEach.

Context {A : Type} (body : Z -> IO.M A) (Q : Z -> Prop) (P : pybytes -> Prop)
  (f : Z -> pybytes -> A) (g : Z -> pybytes) (h : Z -> pybytes -> list string).

(** Each iteration consumes one reply, writes one frame and prints some
    lines, without publishing or raising. *)
Hypothesis body_spec : forall i r ws rs out pub, Q i -> P r ->
  body i (mkWorld ws (r :: rs) out pub) =
  (Ok (f i r), mkWorld (ws ++ [g i]) rs (out ++ h i r) pub).

Lemma for_each_replies (l : list Z) (resps : list pybytes) ws rs out pub :
  List.length l = List.length resps -> Forall Q l -> Forall P resps ->
  IO.for_each l body (mkWorld ws (resps ++ rs) out pub) =
  (Ok (map (fun p => f (fst p) (snd p)) (combine l resps)),
   mkWorld (ws ++ map g l) rs (out ++ List.concat (map (fun p => h (fst p) (snd p)) (combine l resps))) pub).
Proof.
  revert resps ws out. induction l as [|i l IH]; intros resps ws out Hl HQ HP.
  - destruct resps; [|discriminate]. simpl. rewrite !app_nil_r. reflexivity.
  - destruct resps as [|r resps]; [discriminate|].
    inversion HP as [|? ? Hr HP']; subst. inversion HQ as [|? ? Hi HQ']; subst.
    injection Hl as Hl.
    simpl IO.for_each. unfold IO.bindM at 1. cbn [app]. rewrite body_spec by assumption.
    unfold IO.bindM at 1. rewrite IH by assumption.
    unfold IO.ret. simpl. rewrite <- !app_assoc. reflexivity.
Qed.

End ForEach.

(** ** The JSON bridge's single-channel commands *)

Definition input_frame (device ch : Z) : pybytes :=
  frame_with_crc [device; 3; Z.land (Z.shiftr (128 + ch) 8) 255; Z.land (128 + ch) 255; 0; 1].

Lemma json_input_cycle (device ch : Z) (r : pybytes) ws rs out pub :
  0 <= device < 256 ->
  JsonBridge.process_command device (JsonBridge.CmdInput ch) (mkWorld ws (r :: rs) out pub) =
  match JsonBridge.state_of_resp (firstn 256 r) with
  | Ok st =>
      (Ok tt, mkWorld (ws ++ [input_frame device ch]) rs out
                (pub ++ [JObj [("cmd", JStr "input"); ("input", JInt ch);
                               ("state", JStr st); ("raw", JStr (hexdump (firstn 256 r)))]]))
  | Err e =>
      (Ok tt, mkWorld (ws ++ [input_frame device ch]) rs out
                (pub ++ [JObj [("result", JStr "error"); ("message", JStr (exn_str e))]]))
  end.
Proof.
  intros Hd. unfold JsonBridge.process_command, IO.try_except, IO.bindM at 1, IO.lift.
  rewrite json_read_input_ok by exact Hd. fold (input_frame device ch).
  unfold IO.bindM at 1. rewrite exchange_step.
  unfold IO.bindM, IO.lift.
  destruct (JsonBridge.state_of_resp (firstn 256 r)); reflexivity.
Qed.

Lemma json_output_cycle (device ch : Z) (action : string) (r : pybytes) ws rs out pub :
  0 <= device < 256 -> 1 <= ch <= 8 -> action = "on" \/ action = "off" ->
  JsonBridge.process_command device (JsonBridge.CmdOutput ch action) (mkWorld ws (r :: rs) out pub) =
  (Ok tt, mkWorld (ws ++ [frame_with_crc [device; 6; 0; ch; action_hi action; 0]]) rs out
            (pub ++ [JObj [("result", JStr "ok"); ("cmd", JStr "output");
                           ("channel", JInt ch); ("state", JStr action);
                           ("response", JStr (hexdump (firstn 256 r)))]])).
Proof.
  intros Hd Hc Ha. unfold JsonBridge.process_command, IO.try_except, IO.bindM at 1, IO.lift.
  rewrite json_relay_ok by assumption.
  unfold IO.bindM at 1. rewrite exchange_step. reflexivity.
Qed.

Lemma json_output_all_item_cycle (device i : Z) (action : string) (r : pybytes) ws rs out pub :
  0 <= device < 256 -> 1 <= i <= 8 -> action = "on" \/ action = "off" ->
  JsonBridge.output_all_item device action i (mkWorld ws (r :: rs) out pub) =
  (Ok (JObj [("channel", JInt i);
             ("response", match firstn 256 r with [] => JNull | _ => JStr (hexdump (firstn 256 r)) end)]),
   mkWorld (ws ++ [frame_with_crc [device; 6; 0; i; action_hi action; 0]]) rs out pub).
Proof.
  intros Hd Hc Ha. unfold JsonBridge.output_all_item, IO.bindM at 1, IO.lift.
  rewrite json_relay_ok by assumption.
  unfold IO.bindM at 1. rewrite exchange_step. reflexivity.
Qed.

(** ** The command-line tester's single-channel commands *)

Lemma raw_in_cycle (device inp : Z) (line : string) (r : pybytes) ws rs out pub :
  0 <= device < 256 ->
  RawTest.handle_command device line (RawTest.CliIn inp) (mkWorld ws (r :: rs) out pub) =
  let w := mkWorld (ws ++ [input_frame device inp]) rs
             (out ++ [String.concat " " ["You typed: "; line]]) pub in
  match firstn 256 r with
  | [] => (Ok tt, print_world w [String.concat " " ["<- No response (timeout)."]])
  | r' =>
      let w' := print_world w [String.concat " " ["<- Response:"; hexdump r']] in
      match index r' 4 with
      | Ok x =>
          (Ok tt, print_world w'
             [String.concat " " [if x =? 1 then ("Input " ++ str_int inp ++ " is ON")%string
                                 else ("Input " ++ str_int inp ++ " is OFF")%string]])
      | Err e => (Err e, w')
      end
  end.
Proof.
  intros Hd. unfold RawTest.handle_command, IO.print at 1, IO.bindM at 1.
  unfold IO.bindM at 1, IO.lift. rewrite raw_read_input_ok by exact Hd.
  fold (input_frame device inp).
  unfold IO.bindM at 1. cbv zeta. cbn [written replies stdout published].
  rewrite exchange_step.
  destruct (firstn 256 r) as [|b r'] eqn:E; [reflexivity|].
  cbn [List.length Nat.ltb Nat.leb].
  unfold IO.bindM, IO.print, IO.lift, print_world. cbn [written replies stdout published].
  destruct (index (b :: r') 4) as [x|e]; [|reflexivity].
  destruct (x =? 1); reflexivity.
Qed.

Lemma raw_out_cycle (device ch : Z) (action line : string) (r : pybytes) ws rs out pub :
  0 <= device < 256 -> 1 <= ch <= 8 -> action = "on" \/ action = "off" ->
  RawTest.handle_command device line (RawTest.CliOut ch action) (mkWorld ws (r :: rs) out pub) =
  let body := [device; 6; 0; ch; action_hi action; 0] in
  (Ok tt, mkWorld (ws ++ [frame_with_crc body]) rs
            (out ++ [String.concat " " ["You typed: "; line];
                     String.concat " " ["Frame without CRC:"; hexdump (map byte_of_Z body)];
                     String.concat " " ["<- Response:"; hexdump (firstn 256 r)]]) pub).
Proof.
  intros Hd Hc Ha. unfold RawTest.handle_command, IO.print at 1, IO.bindM at 1.
  unfold IO.bindM at 1. rewrite raw_relay_ok by assumption.
  unfold print_world. cbn [written replies stdout published].
  unfold IO.bindM at 1. rewrite exchange_step.
  unfold IO.print. cbn [written replies stdout published].
  rewrite <- !app_assoc. reflexivity.
Qed.

Lemma index_short (r : pybytes) :
  (List.length r < 5)%nat -> index r 4 = Err (IndexError "index out of range").
Proof.
  intros H. unfold index. destruct (nth_error r 4) eqn:E; [|reflexivity].
  assert (Hs : nth_error r 4 <> None) by congruence.
  apply nth_error_Some in Hs. lia.
Qed.

Lemma firstn_256_short (r : pybytes) : (List.length r <= 256)%nat -> firstn 256 r = r.
Proof. intros H. apply firstn_all2. exact H. Qed.

Lemma json_state_of_resp_short (r : pybytes) :
  (1 <= List.length r < 5)%nat ->
  JsonBridge.state_of_resp r = Err (IndexError "index out of range").
Proof.
  intros H. destruct r as [|b r']; [simpl in H; lia|].
  unfold JsonBridge.state_of_resp. rewrite index_short by lia. reflexivity.
Qed.

Lemma json_read_input_small (device i : Z) :
  0 <= device < 256 -> 1 <= i <= 8 ->
  JsonBridge.build_read_input device i = Ok (frame_with_crc [device; 3; 0; 128 + i; 0; 1]).
Proof.
  intros Hd Hi. unfold JsonBridge.build_read_input.
  destruct (addr_bytes_small (128 + i)) as [-> ->]; [lia|].
  apply append_crc_ok. byte_bounds.
Qed.

Lemma raw_read_input_small (device i : Z) :
  0 <= device < 256 -> 1 <= i <= 8 ->
  RawTest.build_read_input device i = Ok (frame_with_crc [device; 3; 0; 128 + i; 0; 1]).
Proof.
  intros Hd Hi. unfold RawTest.build_read_input.
  destruct (addr_bytes_small (128 + i)) as [-> ->]; [lia|].
  apply append_crc_ok. byte_bounds.
Qed.

Lemma json_status_item_cycle (device i : Z) (target : string) (r : pybytes) ws rs out pub :
  0 <= device < 256 -> 1 <= i <= 8 ->
  JsonBridge.status_item device target i (mkWorld ws (r :: rs) out pub) =
  let w := mkWorld (ws ++ [status_frame device target i]) rs out pub in
  match JsonBridge.state_of_resp (firstn 256 r) with
  | Ok st => (Ok (JObj [("channel", JInt i); ("state", JStr st)]), w)
  | Err e => (Err e, w)
  end.
Proof.
  intros Hd Hi. unfold JsonBridge.status_item, IO.bindM at 1, IO.lift, status_frame.
  destruct (String.eqb target "inputs").
  - rewrite json_read_input_small by assumption.
    unfold IO.bindM at 1. rewrite exchange_step.
    destruct (JsonBridge.state_of_resp (firstn 256 r)); reflexivity.
  - destruct (read_output_bodies device i Hd Hi) as (-> & _ & _).
    unfold IO.bindM at 1. rewrite exchange_step.
    destruct (JsonBridge.state_of_resp (firstn 256 r)); reflexivity.
Qed.

Lemma range_1_9 : range 1 9 = [1; 2; 3; 4; 5; 6; 7; 8].
Proof. reflexivity. Qed.

Lemma range_1_9_bounds : Forall (fun i => 1 <= i <= 8) (range 1 9).
Proof. rewrite range_1_9. repeat constructor; lia. Qed.

(** A status poll whose replies before channel [k+1] decode and whose reply
    at channel [k+1] fails stops there with that error, having written the
    frames for channels 1..k+1 only. *)
Lemma json_status_poll_stops (device : Z) (target : string) (e : exn) (resp : pybytes)
    (good : list pybytes) (l : list Z) ws rs out pub :
  0 <= device < 256 -> Forall (fun i => 1 <= i <= 8) l ->
  (List.length good < List.length l)%nat -> Forall decodable good ->
  JsonBridge.state_of_resp (firstn 256 resp) = Err e ->
  IO.for_each l (JsonBridge.status_item device target) (mkWorld ws (good ++ resp :: rs) out pub) =
  (Err e, mkWorld (ws ++ map (status_frame device target) (firstn (S (List.length good)) l))
            rs out pub).
Proof.
  intros Hd. revert l ws. induction good as [|g good IH]; intros l ws Hl Hlen Hg He;
    (destruct l as [|i l]; [simpl in Hlen; lia|]); inversion Hl as [|? ? Hi Hl']; subst.
  - apply for_each_cons_err. cbn [app].
    rewrite json_status_item_cycle by assumption. rewrite He. reflexivity.
  - inversion Hg as [|? ? Hgd Hg']; subst.
    cbn [IO.for_each app]. unfold IO.bindM at 1.
    rewrite json_status_item_cycle by assumption.
    rewrite json_state_of_resp_decodable by (apply decodable_firstn, Hgd). cbv zeta.
    unfold IO.bindM at 1. rewrite IH by (simpl in Hlen; (assumption || lia)).
    cbn [List.length firstn map]. rewrite <- app_assoc. reflexivity.
Qed.

(** C4 (as the code does it): a reply of one to four bytes makes
    [resp[4]] raise [IndexError]; there is no Malformed outcome.  The JSON
    bridge's [process_command] catches it and publishes
    [{"result": "error", "message": "index out of range"}] (for the input
    command, and for a status poll, which stops at that channel: with
    decodable replies on channels 1..k and the short one on channel k+1,
    only the frames for channels 1..k+1 are written), while the
    command-line tester's [in] command lets it propagate. *)
Theorem short_response_raises (resp : pybytes) :
  (1 <= List.length resp < 5)%nat ->
  JsonBridge.state_of_resp resp = Err (IndexError "index out of range") /\
  (forall device ch ws rs out pub, 0 <= device < 256 ->
     JsonBridge.process_command device (JsonBridge.CmdInput ch) (mkWorld ws (resp :: rs) out pub) =
     (Ok tt, mkWorld (ws ++ [input_frame device ch]) rs out
        (pub ++ [JObj [("result", JStr "error"); ("message", JStr "index out of range")]]))) /\
  (forall device target (good : list pybytes) ws rs out pub, 0 <= device < 256 ->
     (List.length good < 8)%nat -> Forall decodable good ->
     JsonBridge.process_command device (JsonBridge.CmdStatus target)
       (mkWorld ws (good ++ resp :: rs) out pub) =
     (Ok tt, mkWorld (ws ++ map (status_frame device target)
                                (firstn (S (List.length good)) (range 1 9))) rs out
        (pub ++ [JObj [("result", JStr "error"); ("message", JStr "index out of range")]]))) /\
  (forall device inp line ws rs out pub, 0 <= device < 256 ->
     fst (RawTest.handle_command device line (RawTest.CliIn inp) (mkWorld ws (resp :: rs) out pub)) =
     Err (IndexError "index out of range")).
Proof.
  intros Hl.
  assert (Hf : firstn 256 resp = resp) by (apply firstn_256_short; lia).
  assert (Hs := json_state_of_resp_short resp Hl).
  split; [exact Hs|]. split; [|split].
  - intros device ch ws rs out pub Hd.
    rewrite json_input_cycle by exact Hd. rewrite Hf, Hs. reflexivity.
  - intros device target good ws rs out pub Hd Hlen Hg.
    unfold JsonBridge.process_command, IO.try_except.
    rewrite (bindM_err _ _ _ (IndexError "index out of range")
               (mkWorld (ws ++ map (status_frame device target)
                                   (firstn (S (List.length good)) (range 1 9))) rs out pub)).
    + reflexivity.
    + apply json_status_poll_stops; [exact Hd | exact range_1_9_bounds | rewrite range_1_9; exact Hlen
                                    | exact Hg | rewrite Hf; exact Hs].
  - intros device inp line ws rs out pub Hd.
    rewrite raw_in_cycle by exact Hd. rewrite Hf.
    destruct resp as [|b r']; [simpl in Hl; lia|].
    cbv zeta beta iota. rewrite index_short by (simpl in *; lia). reflexivity.
Qed.

(** Witness of C4 at a one-byte reply. *)
Lemma short_response_raises_witness :
  (1 <= List.length [Byte.x01] < 5)%nat /\
  JsonBridge.state_of_resp [Byte.x01] = Err (IndexError "index out of range").
Proof.
  split; [simpl; lia|].
  apply (short_response_raises [Byte.x01]). simpl; lia.
Defined.

(** Counterexample to C4 as stated: a two-byte reply to the JSON bridge's
    input command is not decoded to any value: the command fails with the
    [IndexError] and only an error object is published. *)
Lemma short_response_not_malformed_value :
  JsonBridge.state_of_resp [Byte.x01; Byte.x83] = Err (IndexError "index out of range") /\
  JsonBridge.process_command 1 (JsonBridge.CmdInput 1)
    (mkWorld [] [[Byte.x01; Byte.x83]] [] []) =
  (Ok tt, mkWorld [input_frame 1 1] [] []
            [JObj [("result", JStr "error"); ("message", JStr "index out of range")]]).
Proof. split; vm_compute; reflexivity. Qed.

(** C5 (as the code does it): an empty reply is never turned into a
    Timeout outcome by the JSON bridge: a read decodes it as state "off"
    (the input command publishes ["state": "off"]), a single relay write
    publishes ["result": "ok"] with an empty ["response"], and each entry
    of [output_all] records ["response": null].  The command-line tester
    reports an empty reply to a read as a timeout line, but for a relay
    write prints ["<- Response: "] with an empty hex dump. *)
Theorem empty_response_outcomes :
  JsonBridge.state_of_resp [] = Ok "off" /\
  (forall device ch ws rs out pub, 0 <= device < 256 ->
     JsonBridge.process_command device (JsonBridge.CmdInput ch) (mkWorld ws ([] :: rs) out pub) =
     (Ok tt, mkWorld (ws ++ [input_frame device ch]) rs out
        (pub ++ [JObj [("cmd", JStr "input"); ("input", JInt ch);
                       ("state", JStr "off"); ("raw", JStr "")]]))) /\
  (forall device ch action ws rs out pub,
     0 <= device < 256 -> 1 <= ch <= 8 -> action = "on" \/ action = "off" ->
     JsonBridge.process_command device (JsonBridge.CmdOutput ch action)
       (mkWorld ws ([] :: rs) out pub) =
     (Ok tt, mkWorld (ws ++ [frame_with_crc [device; 6; 0; ch; action_hi action; 0]]) rs out
        (pub ++ [JObj [("result", JStr "ok"); ("cmd", JStr "output"); ("channel", JInt ch);
                       ("state", JStr action); ("response", JStr "")]]))) /\
  (forall device i action ws rs out pub,
     0 <= device < 256 -> 1 <= i <= 8 -> action = "on" \/ action = "off" ->
     JsonBridge.output_all_item device action i (mkWorld ws ([] :: rs) out pub) =
     (Ok (JObj [("channel", JInt i); ("response", JNull)]),
      mkWorld (ws ++ [frame_with_crc [device; 6; 0; i; action_hi action; 0]]) rs out pub)) /\
  (forall label i w,
     RawTest.report_state label i [] w =
     (Ok tt, print_world w [(label ++ " " ++ str_int i ++ ": No response (timeout).")%string])) /\
  (forall device inp line ws rs out pub, 0 <= device < 256 ->
     RawTest.handle_command device line (RawTest.CliIn inp) (mkWorld ws ([] :: rs) out pub) =
     (Ok tt, mkWorld (ws ++ [input_frame device inp]) rs
        (out ++ [String.concat " " ["You typed: "; line]; "<- No response (timeout)."]) pub)) /\
  (forall device ch action line ws rs out pub,
     0 <= device < 256 -> 1 <= ch <= 8 -> action = "on" \/ action = "off" ->
     exists frame_line,
     RawTest.handle_command device line (RawTest.CliOut ch action) (mkWorld ws ([] :: rs) out pub) =
     (Ok tt, mkWorld (ws ++ [frame_with_crc [device; 6; 0; ch; action_hi action; 0]]) rs
        (out ++ [String.concat " " ["You typed: "; line]; frame_line; "<- Response: "]) pub)).
Proof.
  split; [reflexivity|]. split; [|split; [|split; [|split; [|split]]]].
  - intros device ch ws rs out pub Hd. rewrite json_input_cycle by exact Hd. reflexivity.
  - intros device ch action ws rs out pub Hd Hc Ha.
    rewrite json_output_cycle by assumption. reflexivity.
  - intros device i action ws rs out pub Hd Hi Ha.
    rewrite json_output_all_item_cycle by assumption. reflexivity.
  - intros label i w. reflexivity.
  - intros device inp line ws rs out pub Hd.
    rewrite raw_in_cycle by exact Hd. unfold print_world. cbn.
    rewrite <- app_assoc. reflexivity.
  - intros device ch action line ws rs out pub Hd Hc Ha.
    rewrite raw_out_cycle by assumption. eexists. reflexivity.
Qed.

(** Counterexample to C5 as stated: with no reply, the JSON bridge's input
    command publishes ["state": "off"], not a Timeout outcome. *)
Lemma empty_input_reply_is_off :
  JsonBridge.process_command 1 (JsonBridge.CmdInput 1) (mkWorld [] [[]] [] []) =
  (Ok tt, mkWorld [input_frame 1 1] [] []
            [JObj [("cmd", JStr "input"); ("input", JInt 1);
                   ("state", JStr "off"); ("raw", JStr "")]]).
Proof. vm_compute. reflexivity. Qed.

(** C9: for a reply of at least five bytes, a read decodes byte 4: value 1
    gives "on" / "ON", any other value "off" / "OFF", in the JSON bridge
    and in the command-line tester; a five-byte reply with byte 4 = 1
    decodes to "on" and with byte 4 = 0 to "off". *)
Theorem read_byte4_decodes (resp : pybytes) :
  (5 <= List.length resp)%nat ->
  (exists b, nth_error resp 4 = Some b /\
     JsonBridge.state_of_resp resp = Ok (if to_Z b =? 1 then "on" else "off") /\
     (forall label i w,
        RawTest.report_state label i resp w =
        (Ok tt, print_world w [if to_Z b =? 1 then (label ++ " " ++ str_int i ++ " is ON")%string
                               else (label ++ " " ++ str_int i ++ " is OFF")%string]))) /\
  JsonBridge.state_of_resp [Byte.x01; Byte.x03; Byte.x02; Byte.x00; Byte.x01] = Ok "on" /\
  JsonBridge.state_of_resp [Byte.x01; Byte.x03; Byte.x02; Byte.x00; Byte.x00] = Ok "off".
Proof.
  intros Hl. split; [|split; reflexivity].
  destruct (nth_error resp 4) as [b|] eqn:E.
  2:{ apply nth_error_None in E. lia. }
  exists b. split; [reflexivity|].
  assert (Hi : index resp 4 = Ok (to_Z b)) by (unfold index; rewrite E; reflexivity).
  split.
  - destruct resp as [|c r']; [simpl in Hl; lia|].
    unfold JsonBridge.state_of_resp. rewrite Hi. reflexivity.
  - intros label i w. unfold RawTest.report_state.
    replace (Nat.ltb 0 (List.length resp)) with true by (symmetry; apply Nat.ltb_lt; lia).
    unfold IO.bindM, IO.lift. rewrite Hi.
    destruct (to_Z b =? 1); reflexivity.
Qed.

(** Witness of C9 at a five-byte reply with byte 4 = 1. *)
Lemma read_byte4_decodes_witness :
  (5 <= List.length [Byte.x01; Byte.x03; Byte.x02; Byte.x00; Byte.x01])%nat /\
  exists b, nth_error [Byte.x01; Byte.x03; Byte.x02; Byte.x00; Byte.x01] 4 = Some b /\
    JsonBridge.state_of_resp [Byte.x01; Byte.x03; Byte.x02; Byte.x00; Byte.x01] =
    Ok (if to_Z b =? 1 then "on" else "off").
Proof.
  split; [simpl; lia|].
  destruct (read_byte4_decodes [Byte.x01; Byte.x03; Byte.x02; Byte.x00; Byte.x01])
    as [[b (H1 & H2 & _)] _]; [simpl; lia|].
  exists b. split; [exact H1 | exact H2].
Defined.

(** ** The eight-channel poll loops *)

Lemma concat_map_nil {X Y} (l : list X) : List.concat (map (fun _ => @nil Y) l) = [].
Proof. induction l; simpl; auto. Qed.

Lemma report_state_decodable (label : string) (i : Z) (r : pybytes) (w : world) :
  decodable r ->
  RawTest.report_state label i r w = (Ok tt, print_world w [cli_status_line label i r]).
Proof.
  intros [-> | Hl]; [reflexivity|].
  destruct (nth_error r 4) as [b|] eqn:E.
  2:{ apply nth_error_None in E. lia. }
  assert (Hi : index r 4 = Ok (to_Z b)) by (unfold index; rewrite E; reflexivity).
  unfold RawTest.report_state.
  replace (Nat.ltb 0 (List.length r)) with true by (symmetry; apply Nat.ltb_lt; lia).
  unfold IO.bindM, IO.lift. rewrite Hi.
  unfold cli_status_line, read_state_of. rewrite E.
  destruct r as [|c r']; [simpl in Hl; lia|].
  destruct (to_Z b =? 1); reflexivity.
Qed.

Lemma cli_status_line_firstn (label : string) (i : Z) (r : pybytes) :
  cli_status_line label i (firstn 256 r) = cli_status_line label i r.
Proof.
  unfold cli_status_line. rewrite read_state_of_firstn.
  destruct r; reflexivity.
Qed.

Lemma json_status_loop (device : Z) (target : string) (resps : list pybytes) ws rs out pub :
  0 <= device < 256 -> List.length resps = 8%nat -> Forall decodable resps ->
  IO.for_each (range 1 9) (JsonBridge.status_item device target)
    (mkWorld ws (resps ++ rs) out pub) =
  (Ok (map (fun p => JObj [("channel", JInt (fst p)); ("state", JStr (read_state_of (snd p)))])
           (combine (range 1 9) resps)),
   mkWorld (ws ++ map (status_frame device target) (range 1 9)) rs out pub).
Proof.
  intros Hd Hl HP.
  rewrite (for_each_replies _ (fun i => 1 <= i <= 8) decodable
             (fun i r => JObj [("channel", JInt i); ("state", JStr (read_state_of r))])
             (status_frame device target) (fun _ _ => [])).
  - rewrite concat_map_nil, app_nil_r. reflexivity.
  - intros i r ws' rs' out' pub' Hi Hr.
    rewrite json_status_item_cycle by assumption.
    rewrite json_state_of_resp_decodable by (apply decodable_firstn, Hr).
    rewrite read_state_of_firstn, app_nil_r. reflexivity.
  - rewrite Hl. reflexivity.
  - exact range_1_9_bounds.
  - exact HP.
Qed.

Lemma raw_status_loop (label : string) (build : Z -> result pybytes) (frame : Z -> pybytes)
    (resps : list pybytes) ws rs out pub :
  (forall i, 1 <= i <= 8 -> build i = Ok (frame i)) ->
  List.length resps = 8%nat -> Forall decodable resps ->
  IO.for_each (range 1 9) (fun i =>
      let! f := IO.lift (build i) in
      let! resp := exchange f in
      RawTest.report_state label i resp)
    (mkWorld ws (resps ++ rs) out pub) =
  (Ok (map (fun _ => tt) (combine (range 1 9) resps)),
   mkWorld (ws ++ map frame (range 1 9)) rs
     (out ++ map (fun p => cli_status_line label (fst p) (snd p)) (combine (range 1 9) resps)) pub).
Proof.
  intros Hb Hl HP.
  rewrite (for_each_replies _ (fun i => 1 <= i <= 8) decodable (fun _ _ => tt) frame
             (fun i r => [cli_status_line label i r])).
  - f_equal. f_equal. f_equal.
    induction (combine (range 1 9) resps); simpl; congruence.
  - intros i r ws' rs' out' pub' Hi Hr.
    unfold IO.bindM at 1, IO.lift. rewrite Hb by exact Hi.
    unfold IO.bindM at 1. rewrite exchange_step.
    rewrite report_state_decodable by (apply decodable_firstn, Hr).
    rewrite cli_status_line_firstn. reflexivity.
  - rewrite Hl. reflexivity.
  - exact range_1_9_bounds.
  - exact HP.
Qed.

(** C8 (as the code does it): when each of the eight replies is empty or
    at least five bytes long, a status poll (the JSON bridge's status
    command, and the command-line tester's [status inp] and [status out])
    sends one read frame per channel for channels 1 to 8 in ascending order,
    consumes one reply per channel and yields exactly one result per
    channel, in channel order (eight entries, the first for channel 1).  An
    empty reply does not stop the poll, but only the tester reports it as a
    timeout ("<label> i: No response (timeout)."); the JSON bridge records
    it as state "off". *)
Theorem status_poll_eight_channels (device : Z) (target line : string)
    (resps : list pybytes) ws rs out pub :
  0 <= device < 256 -> List.length resps = 8%nat -> Forall decodable resps ->
  map fst (combine (range 1 9) resps) = [1; 2; 3; 4; 5; 6; 7; 8] /\
  read_state_of [] = "off" /\
  (forall label i, cli_status_line label i [] =
                   (label ++ " " ++ str_int i ++ ": No response (timeout).")%string) /\
  JsonBridge.process_command device (JsonBridge.CmdStatus target)
    (mkWorld ws (resps ++ rs) out pub) =
  (Ok tt, mkWorld (ws ++ map (status_frame device target) (range 1 9)) rs out
     (pub ++ [JObj [("cmd", JStr "status"); ("target", JStr target);
                    ("states", JList (map (fun p => JObj [("channel", JInt (fst p));
                                                          ("state", JStr (read_state_of (snd p)))])
                                          (combine (range 1 9) resps)))]])) /\
  RawTest.handle_command device line RawTest.CliStatusInp (mkWorld ws (resps ++ rs) out pub) =
  (Ok tt, mkWorld (ws ++ map (fun i => frame_with_crc [device; 3; 0; 128 + i; 0; 1]) (range 1 9)) rs
     (out ++ [String.concat " " ["You typed: "; line]] ++
      map (fun p => cli_status_line "Input" (fst p) (snd p)) (combine (range 1 9) resps)) pub) /\
  RawTest.handle_command device line RawTest.CliStatusOut (mkWorld ws (resps ++ rs) out pub) =
  (Ok tt, mkWorld (ws ++ map (fun i => frame_with_crc [device; 3; 0; i + 1; 0; 1]) (range 1 9)) rs
     (out ++ [String.concat " " ["You typed: "; line]] ++
      map (fun p => cli_status_line "Output" (fst p) (snd p)) (combine (range 1 9) resps)) pub).
Proof.
  intros Hd Hl HP.
  split.
  { rewrite range_1_9.
    do 8 (destruct resps as [|? resps]; [discriminate|]).
    destruct resps; [reflexivity | discriminate]. }
  split; [reflexivity|]. split; [reflexivity|].
  split; [|split].
  - unfold JsonBridge.process_command, IO.try_except. cbv beta iota.
    rewrite (bindM_ok _ _ _ _ _ (json_status_loop device target resps ws rs out pub Hd Hl HP)).
    reflexivity.
  - unfold RawTest.handle_command, IO.bindM at 1, IO.print. cbn [written replies stdout published].
    rewrite (bindM_ok _ _ _ _ _
      (raw_status_loop "Input" (RawTest.build_read_input device)
         (fun i => frame_with_crc [device; 3; 0; 128 + i; 0; 1]) resps ws rs
         (out ++ [String.concat " " ["You typed: "; line]]) pub
         (fun i Hi => raw_read_input_small device i Hd Hi) Hl HP)).
    rewrite <- app_assoc. reflexivity.
  - unfold RawTest.handle_command, IO.bindM at 1, IO.print. cbn [written replies stdout published].
    rewrite (bindM_ok _ _ _ _ _
      (raw_status_loop "Output" (RawTest.builst_read_output device)
         (fun i => frame_with_crc [device; 3; 0; i + 1; 0; 1]) resps ws rs
         (out ++ [String.concat " " ["You typed: "; line]]) pub
         (fun i Hi => proj1 (proj2 (read_output_bodies device i Hd Hi))) Hl HP)).
    rewrite <- app_assoc. reflexivity.
Qed.

(** Witness of C8: eight replies, the third one empty. *)
Lemma status_poll_eight_channels_witness :
  let on := [Byte.x01; Byte.x03; Byte.x02; Byte.x00; Byte.x01; Byte.x79; Byte.x84] in
  let off := [Byte.x01; Byte.x03; Byte.x02; Byte.x00; Byte.x00; Byte.xb8; Byte.x44] in
  let resps := [on; off; []; on; on; off; off; on] in
  (0 <= 1 < 256 /\ List.length resps = 8%nat /\ Forall decodable resps) /\
  JsonBridge.process_command 1 (JsonBridge.CmdStatus "inputs") (mkWorld [] resps [] []) =
  (Ok tt, mkWorld (map (status_frame 1 "inputs") (range 1 9)) [] []
     [JObj [("cmd", JStr "status"); ("target", JStr "inputs");
            ("states", JList (map (fun p => JObj [("channel", JInt (fst p));
                                                  ("state", JStr (read_state_of (snd p)))])
                                  (combine (range 1 9) resps)))]]).
Proof.
  intros on off resps.
  assert (H : 0 <= 1 < 256 /\ List.length resps = 8%nat /\ Forall decodable resps).
  { split; [lia|]. split; [reflexivity|].
    repeat constructor; (left; reflexivity) || (right; simpl; lia). }
  split; [exact H|].
  destruct H as (H1 & H2 & H3).
  destruct (status_poll_eight_channels 1 "inputs" "status inp" resps [] [] [] [] H1 H2 H3)
    as (_ & _ & _ & HJ & _).
  rewrite app_nil_r in HJ. exact HJ.
Defined.

(** ** Channel validation *)

(** [build_read_input] never rejects a channel: for a device byte it
    returns a frame for every input number. *)
Lemma build_read_input_total (device input_num : Z) :
  0 <= device < 256 ->
  JsonBridge.build_read_input device input_num = Ok (input_frame device input_num) /\
  RawTest.build_read_input device input_num = Ok (input_frame device input_num).
Proof.
  intros Hd. split; [apply json_read_input_ok | apply raw_read_input_ok]; exact Hd.
Qed.

(** C6 (failing input): [build_read_input] has no channel check, unlike
    [build_relay_command]: channel 9 gives the frame
    [01 03 00 89 00 01] plus CRC instead of an error, and the JSON bridge's
    input command sends it to the device. *)
Lemma read_input_channel_9_accepted :
  JsonBridge.build_read_input 1 9 = Ok (frame_with_crc [1; 3; 0; 137; 0; 1]) /\
  RawTest.build_read_input 1 9 = Ok (frame_with_crc [1; 3; 0; 137; 0; 1]) /\
  JsonBridge.build_read_input 1 0 = Ok (frame_with_crc [1; 3; 0; 128; 0; 1]) /\
  written (snd (JsonBridge.process_command 1 (JsonBridge.CmdInput 9) (mkWorld [] [[]] [] []))) =
    [frame_with_crc [1; 3; 0; 137; 0; 1]].
Proof. repeat split; vm_compute; reflexivity. Qed.

(** C7 (as the code does it): for every channel outside [1, 8],
    [build_relay_command] raises [ValueError] before any output: the JSON
    bridge's builder always raises "channel must be 1-8", so its output
    command writes no frame and only publishes that error; the builders of
    [modbus_mqtt_bridge.py] and [raw_modbus_test.py] check the action first,
    so they raise "channel must be 1-8" for the actions "on" and "off" and
    "action must be 'on' or 'off'" for any other action, in both cases
    leaving the world (frames written, lines printed) unchanged. *)
Theorem relay_bad_channel (device ch : Z) (action : string) (w : world) :
  ~ (1 <= ch <= 8) ->
  JsonBridge.build_relay_command device ch action = Err (ValueError "channel must be 1-8") /\
  JsonBridge.process_command device (JsonBridge.CmdOutput ch action) w =
    (Ok tt, mkWorld (written w) (replies w) (stdout w)
              (published w ++ [JObj [("result", JStr "error");
                                     ("message", JStr "channel must be 1-8")]])) /\
  MqttBridge.build_relay_command device ch action w =
    (Err (ValueError (if String.eqb action "on" || String.eqb action "off"
                      then "channel must be 1-8" else "action must be 'on' or 'off'")), w) /\
  RawTest.build_relay_command device ch action w =
    (Err (ValueError (if String.eqb action "on" || String.eqb action "off"
                      then "channel must be 1-8" else "action must be 'on' or 'off'")), w).
Proof.
  intros Hc.
  assert (Hj : JsonBridge.build_relay_command device ch action =
               Err (ValueError "channel must be 1-8"))
    by (unfold JsonBridge.build_relay_command; rewrite guard_true by exact Hc; reflexivity).
  split; [exact Hj|]. split; [|split].
  - unfold JsonBridge.process_command, IO.try_except, IO.bindM at 1, IO.lift.
    rewrite Hj. reflexivity.
  - unfold MqttBridge.build_relay_command, IO.bindM, IO.lift.
    destruct (String.eqb action "on"); [|destruct (String.eqb action "off")];
      simpl; rewrite ?guard_true' by exact Hc; reflexivity.
  - unfold RawTest.build_relay_command, IO.bindM, IO.lift.
    destruct (String.eqb action "on"); [|destruct (String.eqb action "off")];
      simpl; rewrite ?guard_true' by exact Hc; reflexivity.
Qed.

(** Witness of C7 at channel 9, action "on". *)
Lemma relay_bad_channel_witness :
  ~ (1 <= 9 <= 8) /\
  JsonBridge.build_relay_command 1 9 "on" = Err (ValueError "channel must be 1-8").
Proof.
  split; [lia|].
  apply (relay_bad_channel 1 9 "on" (mkWorld [] [] [] [])). lia.
Defined.

(** Counterexample to C7 as stated: in [modbus_mqtt_bridge.py], channel 9
    with the action "toggle" raises the action error, not the channel
    error. *)
Lemma relay_bad_channel_bad_action :
  MqttBridge.build_relay_command 1 9 "toggle" (mkWorld [] [] [] []) =
  (Err (ValueError "action must be 'on' or 'off'"), mkWorld [] [] [] []).
Proof. vm_compute. reflexivity. Qed.

(** Counterexample to C8 as stated: in the JSON bridge's status poll, an
    empty reply for channel 3 is recorded as state "off", not Timeout. *)
Lemma status_poll_empty_slot_off :
  let on := [Byte.x01; Byte.x03; Byte.x02; Byte.x00; Byte.x01; Byte.x79; Byte.x84] in
  nth_error
    (match published (snd (JsonBridge.process_command 1 (JsonBridge.CmdStatus "inputs")
                             (mkWorld [] [on; on; []; on; on; on; on; on] [] []))) with
     | [JObj [_; _; (_, JList states)]] => states
     | _ => []
     end) 2 =
  Some (JObj [("channel", JInt 3); ("state", JStr "off")]).
Proof. vm_compute. reflexivity. Qed.

(* ------------------------------------------------------------------ *)
(** ** The CRC check of a complete frame *)

Lemma crc_shift_double (y : Z) : crc_shift (Z.shiftl y 1) = y.
Proof.
  unfold crc_shift. rewrite land_1_testbit, Z.shiftl_spec_low by lia. cbn [negb].
  rewrite Z.shiftr_shiftl_l by lia. apply Z.shiftl_0_r.
Qed.

Lemma crc_iter_shiftl (k : nat) (y : Z) : Nat.iter k crc_shift (Z.shiftl y (Z.of_nat k)) = y.
Proof.
  revert y. induction k as [|k IH]; intros y; [apply Z.shiftl_0_r|].
  replace (Z.of_nat (S k)) with (1 + Z.of_nat k) by lia.
  rewrite <- Z.shiftl_shiftl by lia.
  simpl Nat.iter. rewrite IH. apply crc_shift_double.
Qed.

Lemma split_byte_bits (c : Z) :
  0 <= c -> c = Z.lxor (Z.shiftl (c / 256) 8) (c mod 256).
Proof.
  intros Hc. apply Z.bits_inj'. intros n Hn.
  rewrite Z.lxor_spec. change 256 with (2 ^ 8).
  destruct (Z.lt_ge_cases n 8) as [Hl|Hl].
  - rewrite Z.shiftl_spec_low, Z.mod_pow2_bits_low by lia. reflexivity.
  - rewrite Z.shiftl_spec_high, Z.mod_pow2_bits_high, Z.div_pow2_bits by lia.
    rewrite xorb_false_r. f_equal. lia.
Qed.

Lemma crc16_residue (data : pybytes) :
  crc16_reg (data ++ le16 (crc16_reg data)) = 0.
Proof.
  pose proof (crc16_reg_range data) as Hc.
  unfold crc16_reg at 1. rewrite fold_left_app. fold (crc16_reg data).
  set (c := crc16_reg data) in *. unfold le16. cbn [fold_left].
  assert (Hlo : 0 <= c mod 256 < 256) by (apply Z.mod_pos_bound; lia).
  assert (Hhi : 0 <= c / 256 < 256)
    by (split; [apply Z.div_pos | apply Z.div_lt_upper_bound]; lia).
  rewrite !to_Z_byte_of_Z by assumption.
  rewrite (split_byte_bits c) at 1 by lia.
  rewrite Z.lxor_assoc, Z.lxor_nilpotent, Z.lxor_0_r.
  unfold crc_inner. rewrite (crc_iter_shiftl 8).
  rewrite Z.lxor_nilpotent. reflexivity.
Qed.

(** X1: appending [crc16(data)] to [data] yields a message whose CRC
    register is 0, as a Modbus receiver checks; [crc16] of the whole
    message is [00 00].  This holds for every [data], in particular for
    every [frame + crc16(frame)] the builders return. *)
Theorem crc16_appended_residue (data : pybytes) :
  exists crc, crc16 data = Ok crc /\ crc16_reg (data ++ crc) = 0 /\
              crc16 (data ++ crc) = Ok [Byte.x00; Byte.x00].
Proof.
  exists (le16 (crc16_reg data)). split; [apply crc16_ok|].
  split; [apply crc16_residue|].
  rewrite crc16_ok, crc16_residue. reflexivity.
Qed.

(** ** Hex dumps and [hexstr_to_bytes] *)

Lemma hex_digit_facts (n : Z) :
  0 <= n < 16 ->
  hex_value (hex_digit n) = Some n /\ Str.c_isspace (hex_digit n) = false /\
  Ascii.eqb (hex_digit n) " " = false /\ Ascii.eqb (hex_digit n) (ascii_of_nat 10) = false /\
  Nat.leb 128 (nat_of_ascii (hex_digit n)) = false.
Proof.
  intros Hn. rewrite <- (Z2Nat.id n) by lia.
  assert (Hk : (Z.to_nat n < 16)%nat) by lia.
  generalize dependent (Z.to_nat n). clear n Hn. intros k Hk.
  do 16 (destruct k as [|k]; [repeat split; reflexivity|]). lia.
Qed.

Lemma hex2_digits (b : byte) :
  0 <= to_Z b / 16 < 16 /\ 0 <= to_Z b mod 16 < 16 /\
  to_Z b / 16 * 16 + to_Z b mod 16 = to_Z b.
Proof.
  pose proof (to_Z_range b).
  split; [split; [apply Z.div_pos | apply Z.div_lt_upper_bound]; lia|].
  split; [apply Z.mod_pos_bound; lia|].
  pose proof (Z.div_mod (to_Z b) 16). lia.
Qed.

Lemma remove_char_app (c : ascii) (s t : string) :
  Str.remove_char c (s ++ t) = (Str.remove_char c s ++ Str.remove_char c t)%string.
Proof.
  induction s as [|d s IH]; [reflexivity|]. simpl. rewrite IH.
  destruct (Ascii.eqb d c); reflexivity.
Qed.

Lemma remove_space_hexdump (b : pybytes) :
  Str.remove_char " " (hexdump b) = hex_chars b.
Proof.
  induction b as [|x b IH]; [reflexivity|].
  destruct (hex2_digits x) as (H1 & H2 & _).
  destruct (hex_digit_facts _ H1) as (_ & _ & E1 & _).
  destruct (hex_digit_facts _ H2) as (_ & _ & E2 & _).
  destruct b as [|y b].
  - simpl. rewrite E1, E2. reflexivity.
  - change (hexdump (x :: y :: b)) with (hex2 x ++ " " ++ hexdump (y :: b))%string.
    rewrite !remove_char_app, IH. simpl. rewrite E1, E2. reflexivity.
Qed.

Lemma remove_newline_hex_chars (b : pybytes) :
  Str.remove_char (ascii_of_nat 10) (hex_chars b) = hex_chars b.
Proof.
  induction b as [|x b IH]; [reflexivity|].
  destruct (hex2_digits x) as (H1 & H2 & _).
  destruct (hex_digit_facts _ H1) as (_ & _ & _ & E1 & _).
  destruct (hex_digit_facts _ H2) as (_ & _ & _ & E2 & _).
  simpl. rewrite E1, E2, IH. reflexivity.
Qed.

Lemma first_non_ascii_hex_chars (b : pybytes) (pos : Z) :
  first_non_ascii (list_ascii_of_string (hex_chars b)) pos = None.
Proof.
  revert pos. induction b as [|x b IH]; intros pos; [reflexivity|].
  destruct (hex2_digits x) as (H1 & H2 & _).
  destruct (hex_digit_facts _ H1) as (_ & _ & _ & _ & E1).
  destruct (hex_digit_facts _ H2) as (_ & _ & _ & _ & E2).
  cbn [hex_chars fold_right hex2 append list_ascii_of_string first_non_ascii].
  rewrite E1, E2. apply IH.
Qed.

Lemma fromhex_from_hex_chars (b : pybytes) (pos : Z) :
  fromhex_from (list_ascii_of_string (hex_chars b)) pos = Ok b.
Proof.
  revert pos. induction b as [|x b IH]; intros pos; [reflexivity|].
  destruct (hex2_digits x) as (H1 & H2 & H3).
  destruct (hex_digit_facts _ H1) as (V1 & S1 & _).
  destruct (hex_digit_facts _ H2) as (V2 & S2 & _).
  cbn [hex_chars fold_right hex2 append list_ascii_of_string fromhex_from].
  rewrite S1, V1, V2.
  change (fold_right (fun x acc => (hex2 x ++ acc)%string) "" b) with (hex_chars b).
  rewrite IH. simpl. rewrite H3, byte_of_Z_to_Z. reflexivity.
Qed.

(** X2: [hexstr_to_bytes] inverts [hexdump]: parsing the printed hex dump
    of any byte string gives the byte string back. *)
Theorem hexdump_roundtrip (b : pybytes) : hexstr_to_bytes (hexdump b) = Ok b.
Proof.
  unfold hexstr_to_bytes, fromhex.
  rewrite remove_space_hexdump, remove_newline_hex_chars, first_non_ascii_hex_chars.
  apply fromhex_from_hex_chars.
Qed.

(** ** [int()] on the digits [str()] prints *)

Lemma digits_value_snoc (ds : list nat) (d : nat) :
  digits_value (ds ++ [d]) = 10 * digits_value ds + Z.of_nat d.
Proof. unfold digits_value. rewrite map_app, fold_left_app. reflexivity. Qed.

Lemma digits_of_nat_spec (fuel n : nat) (acc : string) :
  (n < fuel)%nat ->
  exists ds, list_ascii_of_string (digits_of_nat fuel n acc) =
             map digit_char ds ++ list_ascii_of_string acc /\
    Forall (fun d => d < 10)%nat ds /\ digits_value ds = Z.of_nat n /\
    (List.length ds = 1%nat \/ 10 ^ (Z.of_nat (List.length ds) - 1) <= Z.of_nat n) /\
    ds <> [].
Proof.
  revert n acc. induction fuel as [|fuel IH]; intros n acc Hn; [lia|].
  cbn [digits_of_nat].
  destruct (Nat.ltb n 10) eqn:E.
  - apply Nat.ltb_lt in E. exists [n]. rewrite Nat.mod_small by exact E.
    split; [reflexivity|]. split; [constructor; [exact E | constructor]|].
    split; [reflexivity|]. split; [left; reflexivity|]. discriminate.
  - apply Nat.ltb_ge in E.
    destruct (IH (n / 10)%nat (String (ascii_of_nat (48 + n mod 10)) acc))
      as (ds & H1 & H2 & H3 & H4 & H5).
    { apply Nat.lt_le_trans with n; [apply Nat.div_lt; lia | lia]. }
    exists (ds ++ [n mod 10]%nat). rewrite H1, map_app, <- app_assoc. split; [reflexivity|].
    split; [apply Forall_app; split; [exact H2 | constructor; [apply Nat.mod_upper_bound; lia | constructor]]|].
    rewrite digits_value_snoc, H3.
    pose proof (Nat.div_mod n 10 ltac:(lia)) as Hdm.
    split; [lia|].
    split; [right|destruct ds; simpl; discriminate].
    rewrite length_app. simpl List.length.
    assert (Hd : 1 <= Z.of_nat (n / 10)) by (apply (Nat2Z.inj_le 1); apply Nat.div_le_lower_bound; lia).
    destruct H4 as [H4|H4].
    + rewrite H4. simpl. lia.
    + replace (Z.of_nat (List.length ds + 1) - 1) with (Z.of_nat (List.length ds) - 1 + 1) by lia.
      rewrite Z.pow_add_r by (destruct ds; [contradiction|simpl List.length; lia]). lia.
Qed.

Lemma digit_char_facts (d : nat) :
  (d < 10)%nat ->
  Str.isdigit (digit_char d) = true /\ Str.int_space (digit_char d) = false /\
  Str.isspace (digit_char d) = false /\
  Ascii.eqb (digit_char d) "+" = false /\ Ascii.eqb (digit_char d) "-" = false /\
  Ascii.eqb (digit_char d) "_" = false /\ Str.digit_value (digit_char d) = Z.of_nat d.
Proof.
  intros Hd. do 10 (destruct d as [|d]; [repeat split; reflexivity|]). lia.
Qed.

Lemma span_digits_chars (ds : list nat) (rest : list ascii) :
  Forall (fun d => d < 10)%nat ds ->
  (forall c t, rest = c :: t -> (Str.isdigit c || Ascii.eqb c "_")%bool = false) ->
  Str.span_digits (map digit_char ds ++ rest) = (map digit_char ds, rest).
Proof.
  intros Hds Hr. induction Hds as [|d ds Hd _ IH].
  - destruct rest as [|c t]; [reflexivity|].
    cbn [map app Str.span_digits]. rewrite (Hr c t eq_refl). reflexivity.
  - destruct (digit_char_facts d Hd) as (E1 & _).
    cbn [map app Str.span_digits]. rewrite E1, orb_true_l, IH. reflexivity.
Qed.

Lemma digits_filter (ds : list nat) :
  Forall (fun d => d < 10)%nat ds ->
  map Str.digit_value (filter Str.isdigit (map digit_char ds)) = map Z.of_nat ds /\
  Str.underscores_ok (map digit_char ds) = true.
Proof.
  induction 1 as [|d ds Hd _ [IH1 IH2]]; [split; reflexivity|].
  destruct (digit_char_facts d Hd) as (E1 & _ & _ & _ & _ & E6 & E7).
  cbn [map filter Str.underscores_ok]. rewrite E1, E6. cbn [map]. rewrite E7, IH1, IH2.
  split; reflexivity.
Qed.

Lemma digits_length_bound (ds : list nat) (n : Z) :
  (List.length ds = 1%nat \/ 10 ^ (Z.of_nat (List.length ds) - 1) <= n) -> n < 10 ^ 4300 ->
  Nat.ltb 4300 (List.length ds) = false.
Proof.
  intros [H|H] Hn; [rewrite H; reflexivity|].
  apply Nat.ltb_ge.
  assert (Hlt : 10 ^ (Z.of_nat (List.length ds) - 1) < 10 ^ 4300) by (eapply Z.le_lt_trans; eassumption).
  apply (Z.pow_lt_mono_r_iff 10 _ 4300 ltac:(reflexivity) ltac:(discriminate)) in Hlt.
  clear H Hn. lia.
Qed.

Lemma py_int_digits (sign : Z) (pre : list ascii) (ds : list nat) :
  Forall (fun d => d < 10)%nat ds -> ds <> [] ->
  Nat.ltb 4300 (List.length ds) = false ->
  (pre = [] /\ sign = 1 \/ pre = ["-"%char] /\ sign = -1) ->
  Str.py_int (string_of_list_ascii (pre ++ map digit_char ds)) = Ok (sign * digits_value ds).
Proof.
  intros Hds Hne Hlen Hpre.
  destruct ds as [|d ds']; [contradiction|].
  pose proof Hds as Hds0. inversion Hds0 as [|? ? Hd _]; subst.
  destruct (digit_char_facts d Hd) as (E1 & E2 & _ & E4 & E5 & _).
  destruct (digits_filter _ Hds) as [F1 F2].
  assert (Hs : Str.span_digits (map digit_char (d :: ds')) = (map digit_char (d :: ds'), []))
    by (rewrite <- (app_nil_r (map digit_char (d :: ds'))) at 1;
        apply span_digits_chars; [exact Hds | discriminate]).
  unfold Str.py_int. rewrite list_ascii_of_string_of_list_ascii.
  destruct Hpre as [[-> ->] | [-> ->]].
  - cbn [app]. cbn [map Str.drop_while]. rewrite E2. rewrite E4, E5.
    rewrite <- (map_cons digit_char d ds'), Hs.
    rewrite F1, F2, length_map. cbn [map].
    rewrite E1, Hlen. reflexivity.
  - cbn [app]. cbn [Str.drop_while].
    change (Str.int_space "-") with false. cbv iota.
    change (Ascii.eqb "-" "+") with false. change (Ascii.eqb "-" "-") with true. cbv iota zeta.
    rewrite Hs, F1, F2, length_map. cbn [map].
    rewrite E1, Hlen. reflexivity.
Qed.

Lemma str_int_digits (z : Z) :
  exists pre ds sign,
    str_int z = string_of_list_ascii (pre ++ map digit_char ds) /\
    (pre = [] /\ sign = 1 \/ pre = ["-"%char] /\ sign = -1) /\
    Forall (fun d => d < 10)%nat ds /\ ds <> [] /\ sign * digits_value ds = z /\
    (List.length ds = 1%nat \/ 10 ^ (Z.of_nat (List.length ds) - 1) <= Z.abs z).
Proof.
  unfold str_int. destruct (z <? 0) eqn:Ez.
  - apply Z.ltb_lt in Ez.
    destruct (digits_of_nat_spec (S (Z.to_nat (- z))) (Z.to_nat (- z)) "") as (ds & H1 & H2 & H3 & H4 & H5);
      [lia|].
    change (list_ascii_of_string "") with (@nil ascii) in H1. rewrite app_nil_r in H1.
    exists ["-"%char], ds, (-1). split.
    + cbn [app string_of_list_ascii]. rewrite <- H1, string_of_list_ascii_of_string. reflexivity.
    + split; [right; split; reflexivity|]. split; [exact H2|]. split; [exact H5|].
      split; [rewrite H3; lia|].
      destruct H4 as [H4|H4]; [left; exact H4 | right; lia].
  - apply Z.ltb_ge in Ez.
    destruct (digits_of_nat_spec (S (Z.to_nat z)) (Z.to_nat z) "") as (ds & H1 & H2 & H3 & H4 & H5);
      [lia|].
    change (list_ascii_of_string "") with (@nil ascii) in H1. rewrite app_nil_r in H1.
    exists [], ds, 1. split.
    + rewrite <- (string_of_list_ascii_of_string (digits_of_nat _ _ _)), H1. reflexivity.
    + split; [left; split; reflexivity|]. split; [exact H2|]. split; [exact H5|].
      split; [rewrite H3; lia|].
      destruct H4 as [H4|H4]; [left; exact H4 | right; lia].
Qed.

Lemma py_int_of_str_int (z : Z) : Z.abs z < 10 ^ 4300 -> Str.py_int (str_int z) = Ok z.
Proof.
  intros Hz.
  destruct (str_int_digits z) as (pre & ds & sign & -> & Hpre & Hds & Hne & Hv & Hl).
  rewrite (py_int_digits sign); [rewrite Hv; reflexivity | exact Hds | exact Hne | | exact Hpre].
  apply (digits_length_bound ds (Z.abs z)); assumption.
Qed.

(** X3: [int(str(z)) == z] for every integer of at most 4300 digits
    (the default limit of [int()]). *)
Theorem py_int_str_int (z : Z) : Z.abs z < 10 ^ 4300 -> Str.py_int (str_int z) = Ok z.
Proof. exact (py_int_of_str_int z). Qed.

(** Witness of X3 at -42. *)
Lemma py_int_str_int_witness : Z.abs (-42) < 10 ^ 4300 /\ Str.py_int (str_int (-42)) = Ok (-42).
Proof. split; [reflexivity | apply py_int_str_int; reflexivity]. Defined.

(** ** The JSON bridge: one published payload per command *)

Lemma quiet_ret {A} (a : A) : quiet (IO.ret a).
Proof. intros w. split; reflexivity. Qed.

Lemma quiet_lift {A} (r : result A) : quiet (IO.lift r).
Proof. intros w. split; reflexivity. Qed.

Lemma quiet_exchange (frame : pybytes) : quiet (exchange frame).
Proof.
  intros [ws rs out pub]. unfold exchange, IO.bindM, IO.ser_reset_input_buffer, IO.ret,
    IO.ser_write, IO.sleep, IO.ser_read. cbn [written replies stdout published].
  destruct rs; split; reflexivity.
Qed.

Lemma quiet_bind {A B} (m : IO.M A) (k : A -> IO.M B) :
  quiet m -> (forall a, quiet (k a)) -> quiet (IO.bindM m k).
Proof.
  intros Hm Hk w. unfold IO.bindM. destruct (Hm w) as [H1 H2].
  destruct (m w) as [[a|e] w'] eqn:E; cbn [snd] in *.
  - destruct (Hk a w') as [H3 H4]. rewrite H3, H4. split; assumption.
  - split; assumption.
Qed.

Lemma quiet_for_each {A} (l : list Z) (body : Z -> IO.M A) :
  (forall i, quiet (body i)) -> quiet (IO.for_each l body).
Proof.
  intros Hb. induction l as [|i l IH]; simpl; [apply quiet_ret|].
  apply quiet_bind; [apply Hb|]. intros a. apply quiet_bind; [exact IH|]. intros r. apply quiet_ret.
Qed.

Lemma publishes_once_publish (j : json) : publishes_once (IO.publish j).
Proof. intros w. split; [reflexivity|]. exists j. reflexivity. Qed.

Lemma publishes_once_bind {A} (m : IO.M A) (k : A -> IO.M unit) :
  quiet m -> (forall a, publishes_once (k a)) -> publishes_once (IO.bindM m k).
Proof.
  intros Hm Hk w. unfold IO.bindM. destruct (Hm w) as [H1 H2].
  destruct (m w) as [[a|e] w'] eqn:E; cbn [snd fst] in *.
  - destruct (Hk a w') as [H3 H4]. rewrite H3. split; [assumption|].
    destruct (fst (k a w')); [destruct H4 as [j Hj]; exists j; rewrite Hj, H2|rewrite H4, H2]; reflexivity.
  - split; assumption.
Qed.

Ltac quiet_steps :=
  repeat first [ apply publishes_once_publish | apply publishes_once_bind
               | apply quiet_lift | apply quiet_exchange | apply quiet_ret
               | apply quiet_for_each | apply quiet_bind | intro ].

(** X4: the JSON bridge's [process_command] never lets an exception out
    of its try/except: for every parsed command and every world it returns
    normally, publishes exactly one JSON payload (the result or the error
    message) and prints nothing. *)
Theorem json_process_command_publishes_once (device : Z) (c : JsonBridge.command) (w : world) :
  exists j w', JsonBridge.process_command device c w = (Ok tt, w') /\
               published w' = published w ++ [j] /\ stdout w' = stdout w.
Proof.
  assert (Hb : publishes_once
    (match c with
     | JsonBridge.CmdOutput ch state =>
         let! frame := IO.lift (JsonBridge.build_relay_command device ch state) in
         let! resp := exchange frame in
         IO.publish (JObj [("result", JStr "ok"); ("cmd", JStr "output");
                           ("channel", JInt ch); ("state", JStr state);
                           ("response", JStr (hexdump resp))])
     | JsonBridge.CmdOutputAll state =>
         let! results := IO.for_each (range 1 9) (JsonBridge.output_all_item device state) in
         IO.publish (JObj [("result", JStr "ok"); ("cmd", JStr "output_all");
                           ("state", JStr state); ("outputs", JList results)])
     | JsonBridge.CmdInput ch =>
         let! frame := IO.lift (JsonBridge.build_read_input device ch) in
         let! resp := exchange frame in
         let! st := IO.lift (JsonBridge.state_of_resp resp) in
         IO.publish (JObj [("cmd", JStr "input"); ("input", JInt ch);
                           ("state", JStr st); ("raw", JStr (hexdump resp))])
     | JsonBridge.CmdStatus target =>
         let! states := IO.for_each (range 1 9) (JsonBridge.status_item device target) in
         IO.publish (JObj [("cmd", JStr "status"); ("target", JStr target);
                           ("states", JList states)])
     | JsonBridge.CmdUnknown =>
         IO.publish (JObj [("result", JStr "error"); ("message", JStr "Unknown command")])
     end)).
  { destruct c; quiet_steps; unfold JsonBridge.output_all_item, JsonBridge.status_item; quiet_steps. }
  destruct (Hb w) as [Hout Hpub].
  unfold JsonBridge.process_command, IO.try_except.
  destruct (_ w) as [[[]|e] w'] eqn:E; cbn [fst snd] in *.
  - destruct Hpub as [j Hj]. exists j, w'. split; [reflexivity|]. split; assumption.
  - exists (JObj [("result", JStr "error"); ("message", JStr (exn_str e))]).
    exists (mkWorld (written w') (replies w') (stdout w') (published w' ++
              [JObj [("result", JStr "error"); ("message", JStr (exn_str e))]])).
    split; [reflexivity|]. cbn [published stdout]. rewrite Hpub, Hout. split; reflexivity.
Qed.

(** ** The JSON bridge: [output_all] *)

Lemma json_output_all_first_error (device : Z) (state : string) (e : exn) ws rs out pub :
  JsonBridge.build_relay_command device 1 state = Err e ->
  JsonBridge.process_command device (JsonBridge.CmdOutputAll state) (mkWorld ws rs out pub) =
  (Ok tt, mkWorld ws rs out (pub ++ [JObj [("result", JStr "error"); ("message", JStr (exn_str e))]])).
Proof.
  intros He. unfold JsonBridge.process_command, IO.try_except.
  rewrite range_1_9. rewrite (bindM_err _ _ _ e (mkWorld ws rs out pub)); [reflexivity|].
  apply for_each_cons_err. unfold JsonBridge.output_all_item.
  apply bindM_err. unfold IO.lift. rewrite He. reflexivity.
Qed.

(** X5: an [output_all] command is checked before any frame is sent.  With
    a state other than "on" or "off" it publishes the error "action must be
    'on' or 'off'"; with a valid state and a device id outside 0..255 it
    publishes "bytes must be in range(0, 256)".  In both cases nothing is
    written to the serial port, no reply is consumed and nothing is
    printed. *)
Theorem json_output_all_rejects (device : Z) (state : string) ws rs out pub :
  (state <> "on" -> state <> "off" ->
   JsonBridge.process_command device (JsonBridge.CmdOutputAll state) (mkWorld ws rs out pub) =
   (Ok tt, mkWorld ws rs out
             (pub ++ [JObj [("result", JStr "error");
                            ("message", JStr "action must be 'on' or 'off'")]]))) /\
  ((state = "on" \/ state = "off") -> ~ (0 <= device < 256) ->
   JsonBridge.process_command device (JsonBridge.CmdOutputAll state) (mkWorld ws rs out pub) =
   (Ok tt, mkWorld ws rs out
             (pub ++ [JObj [("result", JStr "error");
                            ("message", JStr "bytes must be in range(0, 256)")]]))).
Proof.
  split.
  - intros H1 H2. apply (json_output_all_first_error device state (ValueError "action must be 'on' or 'off'")).
    unfold JsonBridge.build_relay_command. cbn [orb Z.ltb Z.gtb Z.compare].
    apply String.eqb_neq in H1, H2. rewrite H1, H2. reflexivity.
  - intros Hs Hd. apply (json_output_all_first_error device state (ValueError "bytes must be in range(0, 256)")).
    unfold JsonBridge.build_relay_command. cbn [orb Z.ltb Z.gtb Z.compare].
    assert (Hn : ~ Forall is_byte [device; WRITE_REG; 0; 1; action_hi state; 0])
      by (intros Hl; inversion Hl; contradiction).
    destruct Hs as [-> | ->]; cbn [String.eqb Ascii.eqb Bool.eqb bind fst snd];
      rewrite bytes_of_list_err by exact Hn; reflexivity.
Qed.

(** X6: with a device id in 0..255, a state "on" or "off" and eight pending
    replies, an [output_all] command writes the eight relay frames for
    channels 1..8 in order, consumes the eight replies and publishes one
    result listing, per channel, [null] for an empty reply and otherwise the
    hex dump of the reply (of at most 256 bytes). *)
Theorem json_output_all_eight (device : Z) (state : string) (resps : list pybytes) ws rs out pub :
  0 <= device < 256 -> state = "on" \/ state = "off" -> List.length resps = 8%nat ->
  JsonBridge.process_command device (JsonBridge.CmdOutputAll state)
    (mkWorld ws (resps ++ rs) out pub) =
  (Ok tt, mkWorld (ws ++ map (fun i => frame_with_crc [device; 6; 0; i; action_hi state; 0]) (range 1 9))
            rs out
            (pub ++ [JObj [("result", JStr "ok"); ("cmd", JStr "output_all"); ("state", JStr state);
                           ("outputs", JList (map (fun p =>
                              JObj [("channel", JInt (fst p));
                                    ("response", match firstn 256 (snd p) with
                                                 | [] => JNull
                                                 | _ => JStr (hexdump (firstn 256 (snd p)))
                                                 end)])
                              (combine (range 1 9) resps)))]])).
Proof.
  intros Hd Hs Hl. unfold JsonBridge.process_command, IO.try_except, IO.bindM at 1.
  rewrite (for_each_replies _ (fun i => 1 <= i <= 8) (fun _ => True)
       (fun i r => JObj [("channel", JInt i);
                         ("response", match firstn 256 r with [] => JNull | _ => JStr (hexdump (firstn 256 r)) end)])
       (fun i => frame_with_crc [device; 6; 0; i; action_hi state; 0]) (fun _ _ => [])).
  - rewrite concat_map_nil, app_nil_r. reflexivity.
  - intros i r ws' rs' out' pub' Hi _.
    rewrite json_output_all_item_cycle by assumption. rewrite app_nil_r. reflexivity.
  - rewrite Hl. reflexivity.
  - exact range_1_9_bounds.
  - apply Forall_forall. intros; exact I.
Qed.

(** Witness of X5: a device 1 with state "toggle", and a device 300 with
    state "on". *)
Lemma json_output_all_rejects_witness :
  JsonBridge.process_command 1 (JsonBridge.CmdOutputAll "toggle") (mkWorld [] [] [] []) =
    (Ok tt, mkWorld [] [] [] [JObj [("result", JStr "error");
                                  ("message", JStr "action must be 'on' or 'off'")]]) /\
  JsonBridge.process_command 300 (JsonBridge.CmdOutputAll "on") (mkWorld [] [] [] []) =
    (Ok tt, mkWorld [] [] [] [JObj [("result", JStr "error");
                                  ("message", JStr "bytes must be in range(0, 256)")]]).
Proof.
  split.
  - apply (proj1 (json_output_all_rejects 1 "toggle" [] [] [] [])); discriminate.
  - apply (proj2 (json_output_all_rejects 300 "on" [] [] [] [])); [left; reflexivity | lia].
Defined.

(** Witness of X6: device 1, state "on", eight empty replies. *)
Lemma json_output_all_eight_witness :
  exists w', JsonBridge.process_command 1 (JsonBridge.CmdOutputAll "on")
               (mkWorld [] (repeat [] 8 ++ []) [] []) = (Ok tt, w').
Proof.
  eexists. apply json_output_all_eight; [lia | left; reflexivity | reflexivity].
Defined.

(** ** The MQTT text bridge: [on_message] *)

(** X7: an MQTT message whose stripped, lower-cased text starts with
    "from-subscriber:" or is "ping" or "bye" only prints "Received: " and
    the stripped text: nothing is published (the replies are never sent)
    and the serial port is not used. *)
Theorem mqtt_on_message_ignored (device : Z) (payload : string) (w : world) :
  let incoming := Str.lower (Str.strip payload) in
  Str.startswith incoming "from-subscriber:" = true \/ incoming = "ping" \/ incoming = "bye" ->
  MqttText.on_message device payload w =
  (Ok tt, print_world w [("Received: " ++ Str.strip payload)%string]).
Proof.
  intros incoming H. unfold MqttText.on_message.
  change (Str.lower (Str.strip payload)) with incoming.
  unfold IO.bindM, IO.print. cbn [fst snd].
  destruct H as [H | [H | H]]; rewrite H; reflexivity.
Qed.

(** Witness of X7: the payload "  PING" and a newline. *)
Lemma mqtt_on_message_ignored_witness :
  let payload := ("  PING" ++ String (ascii_of_nat 10) EmptyString)%string in
  Str.lower (Str.strip payload) = "ping" /\
  MqttText.on_message 1 payload (mkWorld [] [] [] []) =
  (Ok tt, print_world (mkWorld [] [] [] []) [("Received: " ++ Str.strip payload)%string]).
Proof.
  intros payload. split; [reflexivity|].
  apply (mqtt_on_message_ignored 1 payload). right; left. reflexivity.
Defined.

(** X8: an MQTT message whose stripped, lower-cased text is "exit" prints
    "Received: ...", publishes "Exiting program as requested." and then
    raises [SystemExit(0)], without using the serial port. *)
Theorem mqtt_on_message_exit (device : Z) (payload : string) ws rs out pub :
  Str.lower (Str.strip payload) = "exit" ->
  MqttText.on_message device payload (mkWorld ws rs out pub) =
  (Err (SystemExit 0),
   mkWorld ws rs (out ++ [("Received: " ++ Str.strip payload)%string;
                          "Publishing message: Exiting program as requested."])
     (pub ++ [JStr "Exiting program as requested."])).
Proof.
  intros H. unfold MqttText.on_message. rewrite H.
  unfold IO.bindM at 1, IO.print. cbn [fst snd written replies stdout published].
  unfold MqttText.process_command. cbn -[Str.isspace].
  rewrite <- app_assoc. reflexivity.
Qed.

(** Witness of X8: the payload "Exit" and a newline. *)
Lemma mqtt_on_message_exit_witness :
  exists w', MqttText.on_message 1 ("Exit" ++ String (ascii_of_nat 10) EmptyString)%string
               (mkWorld [] [] [] []) = (Err (SystemExit 0), w').
Proof. eexists. apply mqtt_on_message_exit. reflexivity. Defined.

(** ** Splitting command lines *)

Lemma str_app_nil_r (s : string) : (s ++ "")%string = s.
Proof. induction s; simpl; congruence. Qed.

Lemma str_app_assoc (a b c : string) : ((a ++ b) ++ c)%string = (a ++ (b ++ c))%string.
Proof. induction a; simpl; congruence. Qed.

Lemma split_from_word (u s acc : string) :
  forallb (fun c => negb (Str.isspace c)) (list_ascii_of_string u) = true ->
  Str.split_from (u ++ s) acc = Str.split_from s (acc ++ u).
Proof.
  revert acc. induction u as [|c u IH]; intros acc Hu.
  - simpl. rewrite str_app_nil_r. reflexivity.
  - simpl in Hu. apply andb_prop in Hu as [Hc Hu]. apply negb_true_iff in Hc.
    simpl. rewrite Hc, IH by exact Hu. rewrite str_app_assoc. reflexivity.
Qed.

Lemma is_word_split_tail (b : string) :
  is_word b = true -> Str.split_from b "" = [b].
Proof.
  intros Hb. unfold is_word in Hb. apply andb_prop in Hb as [Hne Hb].
  rewrite <- (str_app_nil_r b) at 1. rewrite split_from_word by exact Hb.
  simpl. apply negb_true_iff in Hne. rewrite Hne. reflexivity.
Qed.

Lemma split_two_words (a b : string) :
  is_word a = true -> is_word b = true ->
  Str.split_from (a ++ " " ++ b) "" = [a; b].
Proof.
  intros Ha Hb. pose proof Ha as Ha'. unfold is_word in Ha'. apply andb_prop in Ha' as [Hne Ha'].
  rewrite split_from_word by exact Ha'. simpl.
  apply negb_true_iff in Hne. rewrite Hne, is_word_split_tail by exact Hb. reflexivity.
Qed.

Lemma str_int_word (z : Z) : is_word (str_int z) = true.
Proof.
  destruct (str_int_digits z) as (pre & ds & sign & -> & Hpre & Hds & Hne & _ & _).
  unfold is_word. rewrite list_ascii_of_string_of_list_ascii. apply andb_true_intro. split.
  - destruct Hpre as [[-> _] | [-> _]]; [destruct ds; [contradiction|] | reflexivity].
    cbn [app map string_of_list_ascii]. reflexivity.
  - rewrite forallb_app. apply andb_true_intro. split.
    + destruct Hpre as [[-> _] | [-> _]]; reflexivity.
    + induction Hds as [|d ds Hd Hds IH]; [reflexivity|].
      destruct (digit_char_facts d Hd) as (_ & _ & E & _). cbn [map forallb]. rewrite E.
      destruct ds; [reflexivity | apply IH; discriminate].
Qed.

Lemma split_out_command (a b : string) :
  is_word a = true -> is_word b = true ->
  Str.split ("out " ++ a ++ " " ++ b) = ["out"; a; b].
Proof.
  intros Ha Hb. unfold Str.split. simpl Str.split_from. f_equal. apply split_two_words; assumption.
Qed.

Lemma split_in_command (a : string) :
  is_word a = true -> Str.split ("in " ++ a) = ["in"; a].
Proof.
  intros Ha. unfold Str.split. simpl Str.split_from. f_equal. apply is_word_split_tail, Ha.
Qed.

(** ** The MQTT text bridge: [out] *)

Lemma small_abs (z : Z) : 1 <= z <= 8 -> Z.abs z < 10 ^ 4300.
Proof.
  intros H. apply Z.lt_le_trans with 10; [lia|].
  apply (Z.pow_le_mono_r 10 1 4300); lia.
Qed.

(** X9: on the MQTT text bridge, the command "out <ch> <state>" (with [ch]
    printed by [str()]) for a device id in 0..255, a channel 1..8 and a
    state "on" or "off" publishes "You typed:  <cmd>", prints the device,
    channel and state, writes the relay frame, consumes one reply and
    publishes "<- Response: <hex dump of the reply>". *)
Theorem mqtt_out_command (device ch : Z) (state : string) (r : pybytes) ws rs out pub :
  0 <= device < 256 -> 1 <= ch <= 8 -> state = "on" \/ state = "off" ->
  let cmd := ("out " ++ str_int ch ++ " " ++ state)%string in
  let typed := String.concat " " ["You typed: "; cmd] in
  let resp := String.concat " " ["<- Response:"; hexdump (firstn 256 r)] in
  MqttText.process_command device cmd (mkWorld ws (r :: rs) out pub) =
  (Ok tt, mkWorld (ws ++ [frame_with_crc [device; 6; 0; ch; action_hi state; 0]]) rs
     (out ++ [String.concat " " ["Publishing message:"; typed];
              String.concat " " [str_int device; str_int ch; state];
              String.concat " " ["Frame without CRC:";
                                 hexdump (map byte_of_Z [device; 6; 0; ch; action_hi state; 0])];
              String.concat " " ["Publishing message:"; resp]])
     (pub ++ [JStr typed; JStr resp])).
Proof.
  intros Hd Hc Hst cmd typed resp.
  assert (Hs : Str.split cmd = ["out"; str_int ch; state]).
  { apply split_out_command; [apply str_int_word | destruct Hst as [-> | ->]; reflexivity]. }
  unfold MqttText.process_command.
  change (String.eqb cmd "exit") with false. cbv iota.
  rewrite Hs.
  change (Nat.eqb (List.length ["out"; str_int ch; state]) 3 && String.eqb (nth 0 ["out"; str_int ch; state] "") "out")%bool with true.
  cbv iota.
  change (nth 1 ["out"; str_int ch; state] "") with (str_int ch).
  change (nth 2 ["out"; str_int ch; state] "") with state.
  rewrite py_int_of_str_int by (apply small_abs, Hc).
  unfold MqttText.print_pubish at 1.
  cbn [IO.bindM IO.publish IO.print IO.lift IO.sleep IO.ret written replies stdout published].

  unfold IO.bindM at 1. rewrite mqtt_relay_ok by assumption. unfold print_world.
  cbn [written replies stdout published].
  unfold IO.bindM at 1. rewrite exchange_step. unfold MqttText.print_pubish.
  unfold IO.bindM, IO.publish, IO.print. cbn [written replies stdout published].
  rewrite <- !app_assoc. reflexivity.
Qed.

Lemma mqtt_out_prefix (device ch : Z) (state : string) ws rs out pub :
  Z.abs ch < 10 ^ 4300 -> is_word state = true ->
  let cmd := ("out " ++ str_int ch ++ " " ++ state)%string in
  let typed := String.concat " " ["You typed: "; cmd] in
  MqttText.process_command device cmd (mkWorld ws rs out pub) =
  IO.bindM (MqttBridge.build_relay_command device ch state)
    (fun frame => let! resp := exchange frame in
                  MqttText.print_pubish ["<- Response:"; hexdump resp])
    (mkWorld ws rs (out ++ [String.concat " " ["Publishing message:"; typed];
                            String.concat " " [str_int device; str_int ch; state]])
       (pub ++ [JStr typed])).
Proof.
  intros Hc Hw cmd typed.
  assert (Hs : Str.split cmd = ["out"; str_int ch; state])
    by (apply split_out_command; [apply str_int_word | exact Hw]).
  unfold MqttText.process_command.
  change (String.eqb cmd "exit") with false. cbv iota.
  rewrite Hs.
  change (Nat.eqb (List.length ["out"; str_int ch; state]) 3 &&
          String.eqb (nth 0 ["out"; str_int ch; state] "") "out")%bool with true.
  cbv iota.
  change (nth 1 ["out"; str_int ch; state] "") with (str_int ch).
  change (nth 2 ["out"; str_int ch; state] "") with state.
  rewrite py_int_of_str_int by exact Hc.
  unfold MqttText.print_pubish at 1.
  cbn [IO.bindM IO.publish IO.print IO.lift IO.sleep IO.ret written replies stdout published].
  rewrite <- app_assoc. reflexivity.
Qed.

(** X10: on the MQTT text bridge, "out <ch> <state>" with [state] one word
    raises, after publishing "You typed:  <cmd>" and printing the device,
    channel and state, and before anything is written or read: the
    ValueError "action must be 'on' or 'off'" for any other state (checked
    first), "channel must be 1-8" for a valid state and a channel outside
    1..8, and "bytes must be in range(0, 256)" for a valid state and
    channel on a device id outside 0..255. *)
Theorem mqtt_out_command_rejects (device ch : Z) (state : string) ws rs out pub :
  Z.abs ch < 10 ^ 4300 -> is_word state = true ->
  let cmd := ("out " ++ str_int ch ++ " " ++ state)%string in
  let typed := String.concat " " ["You typed: "; cmd] in
  let w' := mkWorld ws rs (out ++ [String.concat " " ["Publishing message:"; typed];
                                   String.concat " " [str_int device; str_int ch; state]])
                    (pub ++ [JStr typed]) in
  (state <> "on" -> state <> "off" ->
     MqttText.process_command device cmd (mkWorld ws rs out pub) =
     (Err (ValueError "action must be 'on' or 'off'"), w')) /\
  ((state = "on" \/ state = "off") -> ~ (1 <= ch <= 8) ->
     MqttText.process_command device cmd (mkWorld ws rs out pub) =
     (Err (ValueError "channel must be 1-8"), w')) /\
  ((state = "on" \/ state = "off") -> 1 <= ch <= 8 -> ~ (0 <= device < 256) ->
     MqttText.process_command device cmd (mkWorld ws rs out pub) =
     (Err (ValueError "bytes must be in range(0, 256)"), w')).
Proof.
  intros Hc Hw.
  pose proof (mqtt_out_prefix device ch state ws rs out pub Hc Hw) as P.
  cbv zeta in P |- *. rewrite P. clear P Hc.
  unfold IO.bindM at 1, MqttBridge.build_relay_command.
  split; [|split].
  - intros H1 H2. apply String.eqb_neq in H1, H2. rewrite H1, H2. reflexivity.
  - intros Hs Hch.
    assert (E : ((ch >? 8) || (ch <? 1))%bool = true).
    { apply orb_true_iff. destruct (Z.gtb_spec ch 8), (Z.ltb_spec ch 1); auto; lia. }
    destruct Hs as [-> | ->]; cbn [IO.bindM IO.lift String.eqb Ascii.eqb Bool.eqb]; rewrite E; reflexivity.
  - intros Hs Hch Hd.
    assert (E : ((ch >? 8) || (ch <? 1))%bool = false).
    { apply orb_false_iff. split; [rewrite Z.gtb_ltb |]; apply Z.ltb_ge; lia. }
    assert (Hn : ~ Forall is_byte [device; WRITE_REG; 0; ch; action_hi state; 0])
      by (intros Hl; inversion Hl; contradiction).
    destruct Hs as [-> | ->]; cbn [IO.bindM IO.lift String.eqb Ascii.eqb Bool.eqb fst snd]; rewrite E;
      unfold IO.bindM, IO.lift; rewrite bytes_of_list_err by exact Hn; reflexivity.
Qed.

(** ** The MQTT text bridge: [on all] and [off all] *)

Lemma concat_map_single {X Y} (g : X -> Y) (l : list X) (rs : list pybytes) :
  List.length l = List.length rs ->
  List.concat (map (fun p => [g (fst p)]) (combine l rs)) = map g l.
Proof.
  revert rs. induction l as [|x l IH]; intros [|r rs] H; try discriminate; [reflexivity|].
  simpl. f_equal. apply IH. injection H as H. exact H.
Qed.


Lemma mqtt_all_loop (device : Z) (act onw tw : string) (resps : list pybytes) ws rs out pub :
  0 <= device < 256 -> act = "on" \/ act = "off" -> List.length resps = 8%nat ->
  IO.for_each (range 1 9) (fun i =>
      let! frame := MqttBridge.build_relay_command device i act in
      let! resp := exchange frame in
      if Nat.ltb 0 (List.length resp)
      then IO.ret ("Channel " ++ str_int i ++ onw ++ hexdump resp)%string
      else IO.ret ("Channel " ++ str_int i ++ tw)%string)
    (mkWorld ws (resps ++ rs) out pub) =
  (Ok (map (fun p => channel_line onw tw (fst p) (snd p)) (combine (range 1 9) resps)),
   mkWorld (ws ++ map (fun i => frame_with_crc [device; 6; 0; i; action_hi act; 0]) (range 1 9)) rs
     (out ++ map (fun i => String.concat " " ["Frame without CRC:";
                    hexdump (map byte_of_Z [device; 6; 0; i; action_hi act; 0])]) (range 1 9)) pub).
Proof.
  intros Hd Ha Hl.
  rewrite (for_each_replies _ (fun i => 1 <= i <= 8) (fun _ => True)
             (fun i r => channel_line onw tw i r)
             (fun i => frame_with_crc [device; 6; 0; i; action_hi act; 0])
             (fun i _ => [String.concat " " ["Frame without CRC:";
                    hexdump (map byte_of_Z [device; 6; 0; i; action_hi act; 0])]])).
  - rewrite (concat_map_single (fun i => String.concat " " ["Frame without CRC:";
                    hexdump (map byte_of_Z [device; 6; 0; i; action_hi act; 0])])) by (rewrite Hl; reflexivity).
    reflexivity.
  - intros i r ws' rs' out' pub' Hi _.
    unfold IO.bindM at 1. rewrite mqtt_relay_ok by assumption. unfold print_world.
    cbn [written replies stdout published].
    unfold IO.bindM at 1. rewrite exchange_step.
    unfold channel_line. destruct r; reflexivity.
  - rewrite Hl. reflexivity.
  - exact range_1_9_bounds.
  - apply Forall_forall. intros; exact I.
Qed.

(** X11: on the MQTT text bridge, "on all" (resp. "off all") for a device
    id in 0..255 and eight pending replies publishes "You typed:  <cmd>",
    writes the eight relay frames for channels 1..8, prints their
    "Frame without CRC" lines, and publishes one text: the line
    "Processing command: <cmd>" and one line per channel, joined by
    newlines, where a timeout reads "Channel i No response (timeout)" for
    "on all" but "Channel i: No response (timeout)" for "off all". *)
Theorem mqtt_on_off_all (device : Z) (resps : list pybytes) ws rs out pub :
  0 <= device < 256 -> List.length resps = 8%nat ->
  forall cmd act onw tw,
  (cmd, act, onw, tw) = ("on all", "on", " ON response: ", " No response (timeout)") \/
  (cmd, act, onw, tw) = ("off all", "off", " OFF response: ", ": No response (timeout)") ->
  let typed := String.concat " " ["You typed: "; cmd] in
  let text := Str.join_lines (("Processing command: " ++ cmd)%string ::
                map (fun p => channel_line onw tw (fst p) (snd p)) (combine (range 1 9) resps)) in
  MqttText.process_command device cmd (mkWorld ws (resps ++ rs) out pub) =
  (Ok tt, mkWorld (ws ++ map (fun i => frame_with_crc [device; 6; 0; i; action_hi act; 0]) (range 1 9)) rs
            (out ++ [String.concat " " ["Publishing message:"; typed]] ++
             map (fun i => String.concat " " ["Frame without CRC:";
                    hexdump (map byte_of_Z [device; 6; 0; i; action_hi act; 0])]) (range 1 9) ++
             [String.concat " " ["Publishing message:"; text]])
            (pub ++ [JStr typed; JStr text])).
Proof.
  intros Hd Hl cmd act onw tw H typed text.
  assert (E : MqttText.process_command device cmd =
    (MqttText.print_pubish ["You typed: "; cmd] ;;
     let! lines := IO.for_each (range 1 9) (fun i =>
       let! frame := MqttBridge.build_relay_command device i act in
       let! resp := exchange frame in
       if Nat.ltb 0 (List.length resp)
       then IO.ret ("Channel " ++ str_int i ++ onw ++ hexdump resp)%string
       else IO.ret ("Channel " ++ str_int i ++ tw)%string) in
     MqttText.print_pubish [Str.join_lines ([("Processing command: " ++ cmd)%string] ++ lines)])).
  { destruct H as [H | H]; injection H as -> -> -> ->; reflexivity. }
  assert (Ha : act = "on" \/ act = "off")
    by (destruct H as [H | H]; injection H as _ -> _ _; auto).
  rewrite E. unfold MqttText.print_pubish at 1.
  unfold IO.bindM at 1 2, IO.publish at 1. cbn [fst snd written replies stdout published].
  unfold IO.print at 1. cbn [written replies stdout published].
  unfold IO.bindM at 1. rewrite mqtt_all_loop by assumption.
  unfold MqttText.print_pubish, IO.bindM, IO.publish, IO.print. cbn [written replies stdout published].
  rewrite <- !app_assoc. reflexivity.
Qed.

(** ** The MQTT text bridge: [status out] and [status inp] *)

Lemma mqtt_read_input_ok (device input_num : Z) :
  0 <= device < 256 ->
  MqttText.build_read_input device input_num = Ok (input_frame device input_num).
Proof. intros Hd. unfold input_frame. apply append_crc_ok. byte_bounds. Qed.

Lemma status_message_decodable (i : Z) (r : pybytes) (w : world) :
  decodable r ->
  MqttText.status_message i (firstn 256 r) w = (Ok (mqtt_status_line i r), w).
Proof.
  intros Hr. apply decodable_firstn in Hr as Hr'.
  assert (Hl : mqtt_status_line i r = mqtt_status_line i (firstn 256 r)).
  { unfold mqtt_status_line. rewrite read_state_of_firstn. destruct r; reflexivity. }
  rewrite Hl. clear Hl Hr. generalize (firstn 256 r) Hr'. clear r Hr'. intros r Hr.
  destruct Hr as [-> | Hl]; [reflexivity|].
  destruct (nth_error r 4) as [b|] eqn:E.
  2:{ apply nth_error_None in E. lia. }
  assert (Hi : index r 4 = Ok (to_Z b)) by (unfold index; rewrite E; reflexivity).
  unfold MqttText.status_message.
  replace (Nat.ltb 0 (List.length r)) with true by (symmetry; apply Nat.ltb_lt; lia).
  unfold IO.bindM, IO.lift. rewrite Hi.
  unfold mqtt_status_line, read_state_of. rewrite E.
  destruct r as [|c r']; [simpl in Hl; lia|].
  destruct (to_Z b =? 1); reflexivity.
Qed.

Lemma mqtt_status_loop (build : Z -> result pybytes) (frame : Z -> pybytes)
    (resps : list pybytes) ws rs out pub :
  (forall i, 1 <= i <= 8 -> build i = Ok (frame i)) ->
  List.length resps = 8%nat -> Forall decodable resps ->
  IO.for_each (range 1 9) (fun i =>
      let! f := IO.lift (build i) in
      let! resp := exchange f in
      MqttText.status_message i resp)
    (mkWorld ws (resps ++ rs) out pub) =
  (Ok (map (fun p => mqtt_status_line (fst p) (snd p)) (combine (range 1 9) resps)),
   mkWorld (ws ++ map frame (range 1 9)) rs out pub).
Proof.
  intros Hb Hl HP.
  rewrite (for_each_replies _ (fun i => 1 <= i <= 8) decodable
             (fun i r => mqtt_status_line i r) frame (fun _ _ => [])).
  - rewrite concat_map_nil, app_nil_r. reflexivity.
  - intros i r ws' rs' out' pub' Hi Hr.
    unfold IO.bindM at 1, IO.lift. rewrite Hb by exact Hi.
    unfold IO.bindM at 1. rewrite exchange_step.
    rewrite status_message_decodable by exact Hr. rewrite app_nil_r. reflexivity.
  - rewrite Hl. reflexivity.
  - exact range_1_9_bounds.
  - exact HP.
Qed.

(** X12: on the MQTT text bridge, "status out" and "status inp" on eight
    replies that are empty or at least five bytes long publish
    "You typed:  <cmd>" and then one text: "Processing command: <cmd>"
    and one line per channel, joined by newlines.  "status out" reads
    register [i] for channel [i], "status inp" register [128 + i], and
    both label every line "Input i". *)
Theorem mqtt_status_commands (device : Z) (resps : list pybytes) ws rs out pub :
  0 <= device < 256 -> List.length resps = 8%nat -> Forall decodable resps ->
  forall cmd (frame : Z -> pybytes),
  (cmd = "status out" /\ frame = (fun i => frame_with_crc [device; 3; 0; i; 0; 1])) \/
  (cmd = "status inp" /\ frame = input_frame device) ->
  let typed := String.concat " " ["You typed: "; cmd] in
  let text := Str.join_lines (("Processing command: " ++ cmd)%string ::
                map (fun p => mqtt_status_line (fst p) (snd p)) (combine (range 1 9) resps)) in
  MqttText.process_command device cmd (mkWorld ws (resps ++ rs) out pub) =
  (Ok tt, mkWorld (ws ++ map frame (range 1 9)) rs
            (out ++ [String.concat " " ["Publishing message:"; typed];
                     String.concat " " ["Publishing message:"; text]])
            (pub ++ [JStr typed; JStr text])).
Proof.
  intros Hd Hl HP cmd frame H typed text.
  destruct H as [[-> ->] | [-> ->]].
  - assert (E : MqttText.process_command device "status out" =
      (MqttText.print_pubish ["You typed: "; "status out"] ;;
       let! lines := IO.for_each (range 1 9) (fun i =>
         let! f := IO.lift (MqttBridge.builst_read_output device i) in
         let! resp := exchange f in
         MqttText.status_message i resp) in
       MqttText.print_pubish [Str.join_lines (["Processing command: status out"] ++ lines)]))
      by reflexivity.
    rewrite E. unfold MqttText.print_pubish at 1.
    unfold IO.bindM at 1 2, IO.publish at 1. cbn [fst snd written replies stdout published].
    unfold IO.print at 1. cbn [written replies stdout published].
    unfold IO.bindM at 1.
    rewrite (mqtt_status_loop _ (fun i => frame_with_crc [device; 3; 0; i; 0; 1])).
    + unfold MqttText.print_pubish, IO.bindM, IO.publish, IO.print. cbn [written replies stdout published].
      rewrite <- !app_assoc. reflexivity.
    + intros i Hi. apply (read_output_bodies device i Hd Hi).
    + exact Hl.
    + exact HP.
  - assert (E : MqttText.process_command device "status inp" =
      (MqttText.print_pubish ["You typed: "; "status inp"] ;;
       let! lines := IO.for_each (range 1 9) (fun i =>
         let! f := IO.lift (MqttText.build_read_input device i) in
         let! resp := exchange f in
         MqttText.status_message i resp) in
       MqttText.print_pubish [Str.join_lines (["Processing command: status inp"] ++ lines)]))
      by reflexivity.
    rewrite E. unfold MqttText.print_pubish at 1.
    unfold IO.bindM at 1 2, IO.publish at 1. cbn [fst snd written replies stdout published].
    unfold IO.print at 1. cbn [written replies stdout published].
    unfold IO.bindM at 1.
    rewrite (mqtt_status_loop _ (input_frame device)).
    + unfold MqttText.print_pubish, IO.bindM, IO.publish, IO.print. cbn [written replies stdout published].
      rewrite <- !app_assoc. reflexivity.
    + intros i _. apply mqtt_read_input_ok, Hd.
    + exact Hl.
    + exact HP.
Qed.

(** ** The command-line tester: the loop body *)

Lemma raw_parse_out (a b : string) :
  is_word a = true -> is_word b = true ->
  RawTestMain.parse_command ("out " ++ a ++ " " ++ b) =
  (let* ch := Str.py_int a in Ok (RawTest.CliOut ch b)).
Proof.
  intros Ha Hb. unfold RawTestMain.parse_command. rewrite split_out_command by assumption.
  reflexivity.
Qed.

Lemma raw_parse_in (a : string) :
  is_word a = true ->
  RawTestMain.parse_command ("in " ++ a) = (let* n := Str.py_int a in Ok (RawTest.CliIn n)).
Proof.
  intros Ha. unfold RawTestMain.parse_command. rewrite split_in_command by assumption.
  reflexivity.
Qed.

(** X13: one pass of the command-line tester's loop: "exit" ends the loop
    with no output; "out <ch> <state>" and "in <n>" (numbers printed by
    [str()], [state] one word) run the [out] and [in] branches with the
    channel [ch] and input [n]; "out <a> <state>" where [int(a)] fails
    prints "You typed:  <cmd>" and raises that error, with nothing
    written to the serial port. *)
Theorem raw_loop_body_dispatch (device ch n : Z) (a state : string) (e : exn) (w : world) :
  Z.abs ch < 10 ^ 4300 -> Z.abs n < 10 ^ 4300 -> is_word state = true ->
  is_word a = true -> Str.py_int a = Err e ->
  RawTestMain.loop_body device "exit" w = (Ok false, w) /\
  (let cmd := ("out " ++ str_int ch ++ " " ++ state)%string in
   RawTestMain.loop_body device cmd w =
   (RawTest.handle_command device cmd (RawTest.CliOut ch state) ;; IO.ret true) w) /\
  (let cmd := ("in " ++ str_int n)%string in
   RawTestMain.loop_body device cmd w =
   (RawTest.handle_command device cmd (RawTest.CliIn n) ;; IO.ret true) w) /\
  (let cmd := ("out " ++ a ++ " " ++ state)%string in
   RawTestMain.loop_body device cmd w =
   (Err e, print_world w [String.concat " " ["You typed: "; cmd]])).
Proof.
  intros Hch Hn Hs Ha He. split; [reflexivity|]. split; [|split].
  - cbv zeta. unfold RawTestMain.loop_body.
    change (String.eqb ("out " ++ str_int ch ++ " " ++ state) "exit") with false. cbv iota.
    rewrite raw_parse_out by (apply str_int_word || exact Hs).
    rewrite py_int_of_str_int by exact Hch. reflexivity.
  - cbv zeta. unfold RawTestMain.loop_body.
    change (String.eqb ("in " ++ str_int n) "exit") with false. cbv iota.
    rewrite raw_parse_in by apply str_int_word.
    rewrite py_int_of_str_int by exact Hn. reflexivity.
  - cbv zeta. unfold RawTestMain.loop_body.
    change (String.eqb ("out " ++ a ++ " " ++ state) "exit") with false. cbv iota.
    rewrite raw_parse_out by assumption. rewrite He. reflexivity.
Qed.

(** Witness of X13: the line "out x on". *)
Lemma raw_loop_body_dispatch_witness :
  exists e, Str.py_int "x" = Err e /\
  RawTestMain.loop_body 1 "out x on" (mkWorld [] [] [] []) =
  (Err e, print_world (mkWorld [] [] [] []) [String.concat " " ["You typed: "; "out x on"]]).
Proof.
  eexists. split; [reflexivity|].
  exact (proj2 (proj2 (proj2 (raw_loop_body_dispatch 1 3 2 "x" "on" _ (mkWorld [] [] [] [])
           ltac:(reflexivity) ltac:(reflexivity) ltac:(reflexivity) ltac:(reflexivity) ltac:(reflexivity))))).
Defined.

(** ** The command-line tester: [on all] and [off all] *)

Lemma raw_all_loop (device : Z) (act word : string) (resps : list pybytes) ws rs out pub :
  0 <= device < 256 -> act = "on" \/ act = "off" -> List.length resps = 8%nat ->
  IO.for_each (range 1 9) (fun i =>
      let! frame := RawTest.build_relay_command device i act in
      let! resp := exchange frame in
      IO.print [("Channel " ++ str_int i ++ word)%string; hexdump resp])
    (mkWorld ws (resps ++ rs) out pub) =
  (Ok (map (fun _ => tt) (combine (range 1 9) resps)),
   mkWorld (ws ++ map (fun i => frame_with_crc [device; 6; 0; i; action_hi act; 0]) (range 1 9)) rs
     (out ++ List.concat (map (fun p =>
        [String.concat " " ["Frame without CRC:";
                            hexdump (map byte_of_Z [device; 6; 0; fst p; action_hi act; 0])];
         String.concat " " [("Channel " ++ str_int (fst p) ++ word)%string;
                            hexdump (firstn 256 (snd p))]])
        (combine (range 1 9) resps))) pub).
Proof.
  intros Hd Ha Hl.
  rewrite (for_each_replies _ (fun i => 1 <= i <= 8) (fun _ => True) (fun _ _ => tt)
             (fun i => frame_with_crc [device; 6; 0; i; action_hi act; 0])
             (fun i r => [String.concat " " ["Frame without CRC:";
                            hexdump (map byte_of_Z [device; 6; 0; i; action_hi act; 0])];
                          String.concat " " [("Channel " ++ str_int i ++ word)%string;
                            hexdump (firstn 256 r)]])).
  - reflexivity.
  - intros i r ws' rs' out' pub' Hi _.
    unfold IO.bindM at 1. rewrite raw_relay_ok by assumption. unfold print_world.
    cbn [written replies stdout published].
    unfold IO.bindM at 1. rewrite exchange_step. unfold IO.print. cbn [written replies stdout published].
    rewrite <- app_assoc. reflexivity.
  - rewrite Hl. reflexivity.
  - exact range_1_9_bounds.
  - apply Forall_forall. intros; exact I.
Qed.

(** X14: in the command-line tester, "on all" (resp. "off all") for a device
    id in 0..255 and eight pending replies prints "You typed:  <cmd>", then
    for each channel 1..8 the "Frame without CRC" line and the line
    "Channel i ON response: <hex>" (resp. "OFF"), and writes the eight
    relay frames in order. *)
Theorem raw_on_off_all (device : Z) (resps : list pybytes) ws rs out pub :
  0 <= device < 256 -> List.length resps = 8%nat ->
  forall c line act word,
  (c, line, act, word) = (RawTest.CliOnAll, "on all", "on", " ON response:") \/
  (c, line, act, word) = (RawTest.CliOffAll, "off all", "off", " OFF response:") ->
  RawTest.handle_command device line c (mkWorld ws (resps ++ rs) out pub) =
  (Ok tt, mkWorld (ws ++ map (fun i => frame_with_crc [device; 6; 0; i; action_hi act; 0]) (range 1 9)) rs
     (out ++ [String.concat " " ["You typed: "; line]] ++
      List.concat (map (fun p =>
        [String.concat " " ["Frame without CRC:";
                            hexdump (map byte_of_Z [device; 6; 0; fst p; action_hi act; 0])];
         String.concat " " [("Channel " ++ str_int (fst p) ++ word)%string;
                            hexdump (firstn 256 (snd p))]])
        (combine (range 1 9) resps))) pub).
Proof.
  intros Hd Hl c line act word H.
  assert (E : RawTest.handle_command device line c =
    (IO.print ["You typed: "; line] ;;
     let! _ := IO.for_each (range 1 9) (fun i =>
       let! frame := RawTest.build_relay_command device i act in
       let! resp := exchange frame in
       IO.print [("Channel " ++ str_int i ++ word)%string; hexdump resp]) in
     IO.ret tt)).
  { destruct H as [H | H]; injection H as -> -> -> ->; reflexivity. }
  assert (Ha : act = "on" \/ act = "off")
    by (destruct H as [H | H]; injection H as _ _ -> _; auto).
  rewrite E. unfold IO.bindM at 1, IO.print at 1. cbn [written replies stdout published].
  unfold IO.bindM at 1. rewrite raw_all_loop by assumption.
  rewrite <- app_assoc. reflexivity.
Qed.

(** ** The command-line tester: the example frames *)

Lemma examples_decoded :
  hexstr_to_bytes "01 06 00 01 01 00 D9 9A" = Ok (frame_with_crc [1; 6; 0; 1; 1; 0]) /\
  hexstr_to_bytes "01 06 00 01 02 00 D9 6A" = Ok (frame_with_crc [1; 6; 0; 1; 2; 0]) /\
  hexstr_to_bytes "01 03 00 01 00 01 D5 CA" = Ok (frame_with_crc [1; 3; 0; 1; 0; 1]) /\
  hexstr_to_bytes "01 06 00 FD 00 00 18 3A" = Ok (frame_with_crc [1; 6; 0; 253; 0; 0]).
Proof. repeat split; vm_compute; reflexivity. Qed.

Lemma send_example_step (name hex : string) (data r : pybytes) ws rs out pub :
  hexstr_to_bytes hex = Ok data ->
  (let! data := IO.lift (hexstr_to_bytes hex) in
   IO.print [String (ascii_of_nat 10) "-> Sending example:"; name; hexdump data] ;;
   let! resp := exchange data in
   match resp with
   | [] => IO.print ["<- No response (timeout)."]
   | _ => IO.print ["<- Raw response:"; hexdump resp]
   end) (mkWorld ws (r :: rs) out pub) =
  (Ok tt, mkWorld (ws ++ [data]) rs (out ++ example_lines name data (firstn 256 r)) pub).
Proof.
  intros H. unfold IO.bindM at 1, IO.lift at 1. rewrite H.
  unfold IO.bindM at 1, IO.print at 1. cbn [written replies stdout published].
  unfold IO.bindM at 1. rewrite exchange_step.
  unfold example_lines. destruct (firstn 256 r); unfold IO.print; cbn [written replies stdout published];
    rewrite <- app_assoc; reflexivity.
Qed.

Lemma send_examples_loop (items : list (string * string)) (datas resps : list pybytes) ws rs out pub :
  map (fun p => hexstr_to_bytes (snd p)) items = map Ok datas ->
  List.length resps = List.length items ->
  for_in items (fun item =>
    let '(name, hexframe) := item in
    let! data := IO.lift (hexstr_to_bytes hexframe) in
    IO.print [String (ascii_of_nat 10) "-> Sending example:"; name; hexdump data] ;;
    let! resp := exchange data in
    match resp with
    | [] => IO.print ["<- No response (timeout)."]
    | _ => IO.print ["<- Raw response:"; hexdump resp]
    end) (mkWorld ws (resps ++ rs) out pub) =
  (Ok (map (fun _ => tt) items),
   mkWorld (ws ++ datas) rs
     (out ++ List.concat (map (fun p => example_lines (fst (fst p)) (snd (fst p)) (firstn 256 (snd p)))
                             (combine (combine (map fst items) datas) resps))) pub).
Proof.
  revert datas resps ws out. induction items as [|[name hex] items IH];
    intros datas resps ws out Hd Hl.
  - destruct datas; [|discriminate]. destruct resps; [|discriminate].
    simpl. rewrite !app_nil_r. reflexivity.
  - destruct datas as [|data datas]; [discriminate|]. destruct resps as [|r resps]; [discriminate|].
    injection Hd as Hh Hd. injection Hl as Hl.
    cbn [for_in app]. cbv beta iota.
    unfold IO.bindM at 1. rewrite (send_example_step name hex data) by exact Hh.
    unfold IO.bindM at 1. rewrite (IH datas) by assumption.
    unfold IO.ret. cbn [map combine fst snd List.concat]. rewrite <- !app_assoc. reflexivity.
Qed.

(** X15: after the loop, the command-line tester sends its four example
    frames in order, consuming one reply each and printing for each the
    "-> Sending example:" line and the reply or timeout line.  The frames
    decode to valid CRC frames: the JSON bridge's relay frames for
    channel 1 on and off, the MQTT bridge's read frame for output 1 (which
    the tester's own [builst_read_output 1 1] does not produce), and the
    write of 0 to register 0xFD. *)
Theorem raw_send_examples (r1 r2 r3 r4 : pybytes) ws rs out pub :
  let f1 := frame_with_crc [1; 6; 0; 1; 1; 0] in
  let f2 := frame_with_crc [1; 6; 0; 1; 2; 0] in
  let f3 := frame_with_crc [1; 3; 0; 1; 0; 1] in
  let f4 := frame_with_crc [1; 6; 0; 253; 0; 0] in
  RawTestMain.send_examples (mkWorld ws ([r1; r2; r3; r4] ++ rs) out pub) =
  (Ok [tt; tt; tt; tt],
   mkWorld (ws ++ [f1; f2; f3; f4]) rs
     (out ++ example_lines "chan1_open" f1 (firstn 256 r1)
          ++ example_lines "chan1_close" f2 (firstn 256 r2)
          ++ example_lines "read_ch1" f3 (firstn 256 r3)
          ++ example_lines "remove realationship" f4 (firstn 256 r4)) pub) /\
  JsonBridge.build_relay_command 1 1 "on" = Ok f1 /\
  JsonBridge.build_relay_command 1 1 "off" = Ok f2 /\
  MqttBridge.builst_read_output 1 1 = Ok f3 /\
  RawTest.builst_read_output 1 1 <> Ok f3.
Proof.
  intros f1 f2 f3 f4.
  destruct examples_decoded as (D1 & D2 & D3 & D4).
  split; [| split; [vm_compute; reflexivity | split; [vm_compute; reflexivity |
           split; [vm_compute; reflexivity | vm_compute; discriminate]]]].
  unfold RawTestMain.send_examples.
  rewrite (send_examples_loop EXAMPLES [f1; f2; f3; f4]).
  - cbn [map combine fst snd List.concat EXAMPLES]. rewrite !app_nil_r. reflexivity.
  - cbn [map EXAMPLES snd]. rewrite D1, D2, D3, D4. reflexivity.
  - reflexivity.
Qed.

(** ** The MQTT text bridge: [in] *)

Lemma mqtt_in_prefix (device n : Z) (r : pybytes) ws rs out pub :
  0 <= device < 256 -> Z.abs n < 10 ^ 4300 ->
  let cmd := ("in " ++ str_int n)%string in
  let typed := String.concat " " ["You typed: "; cmd] in
  MqttText.process_command device cmd (mkWorld ws (r :: rs) out pub) =
  (if Nat.ltb 0 (List.length (firstn 256 r)) then
     let! x := IO.lift (index (firstn 256 r) 4) in
     MqttText.print_pubish [("Input " ++ str_int n ++ " is " ++ (if Z.eqb x 1 then "ON" else "OFF"))%string]
   else MqttText.print_pubish ["<- No response (timeout)."])
    (mkWorld (ws ++ [input_frame device n]) rs
       (out ++ [String.concat " " ["Publishing message:"; typed]]) (pub ++ [JStr typed])).
Proof.
  intros Hd Hn cmd typed.
  assert (Hs : Str.split cmd = ["in"; str_int n]) by (apply split_in_command, str_int_word).
  unfold MqttText.process_command.
  change (String.eqb cmd "exit") with false. cbv iota.
  rewrite Hs.
  change (Nat.eqb (List.length ["in"; str_int n]) 3 && String.eqb (nth 0 ["in"; str_int n] "") "out")%bool
    with false.
  change (String.eqb cmd "on all") with false.
  change (String.eqb cmd "off all") with false.
  change (Nat.eqb (List.length ["in"; str_int n]) 2 && String.eqb (nth 0 ["in"; str_int n] "") "in")%bool
    with true.
  cbv iota.
  change (nth 1 ["in"; str_int n] "") with (str_int n).
  rewrite py_int_of_str_int by exact Hn.
  unfold MqttText.print_pubish at 1.
  cbn [IO.bindM IO.publish IO.print IO.lift IO.ret written replies stdout published].
  unfold IO.bindM at 1, IO.lift at 1. rewrite mqtt_read_input_ok by exact Hd.
  unfold IO.bindM at 1. rewrite exchange_step. reflexivity.
Qed.

(** X16: on the MQTT text bridge, "in <n>" (with [n] printed by [str()]) on
    a device id in 0..255 publishes "You typed:  <cmd>", writes the read
    frame for register [128 + n] and reads one reply.  An empty reply
    publishes "<- No response (timeout).", a reply of at least five bytes
    publishes "Input n is ON" or "Input n is OFF" after its byte 4 (the
    "Processing command" header is never sent), and a reply of one to
    four bytes raises IndexError. *)
Theorem mqtt_in_command (device n : Z) (r : pybytes) ws rs out pub :
  0 <= device < 256 -> Z.abs n < 10 ^ 4300 ->
  let cmd := ("in " ++ str_int n)%string in
  let typed := String.concat " " ["You typed: "; cmd] in
  let w1 := mkWorld (ws ++ [input_frame device n]) rs
              (out ++ [String.concat " " ["Publishing message:"; typed]]) (pub ++ [JStr typed]) in
  let reply text := (Ok tt, mkWorld (ws ++ [input_frame device n]) rs
              (out ++ [String.concat " " ["Publishing message:"; typed];
                       String.concat " " ["Publishing message:"; text]])
              (pub ++ [JStr typed; JStr text])) in
  (r = [] -> MqttText.process_command device cmd (mkWorld ws (r :: rs) out pub) =
             reply "<- No response (timeout).") /\
  ((5 <= List.length r)%nat ->
     MqttText.process_command device cmd (mkWorld ws (r :: rs) out pub) =
     reply ("Input " ++ str_int n ++ " is " ++
            (if String.eqb (read_state_of r) "on" then "ON" else "OFF"))%string) /\
  ((0 < List.length r < 5)%nat ->
     MqttText.process_command device cmd (mkWorld ws (r :: rs) out pub) =
     (Err (IndexError "index out of range"), w1)).
Proof.
  intros Hd Hn.
  pose proof (mqtt_in_prefix device n r ws rs out pub Hd Hn) as P.
  cbv zeta in P |- *. rewrite P. clear P Hn.
  split; [|split].
  - intros ->. cbn [firstn List.length Nat.ltb Nat.leb].
    unfold MqttText.print_pubish, IO.bindM, IO.publish, IO.print.
    cbn [written replies stdout published]. rewrite <- ?app_assoc. reflexivity.
  - intros Hl.
    replace (Nat.ltb 0 (List.length (firstn 256 r))) with true
      by (symmetry; apply Nat.ltb_lt; rewrite length_firstn; lia).
    rewrite <- (read_state_of_firstn r).
    assert (Hl' : (5 <= List.length (firstn 256 r))%nat) by (rewrite length_firstn; lia).
    generalize (firstn 256 r) Hl'. clear r Hl Hl'. intros r Hl.
    destruct (nth_error r 4) as [b|] eqn:E.
    2:{ apply nth_error_None in E. lia. }
    unfold IO.bindM at 1, IO.lift, index. rewrite E.
    unfold read_state_of. rewrite E.
    destruct (to_Z b =? 1); unfold MqttText.print_pubish, IO.bindM, IO.publish, IO.print;
      cbn [written replies stdout published]; rewrite <- ?app_assoc; reflexivity.
  - intros Hl.
    replace (Nat.ltb 0 (List.length (firstn 256 r))) with true
      by (symmetry; apply Nat.ltb_lt; rewrite length_firstn; lia).
    assert (E : nth_error (firstn 256 r) 4 = None)
      by (apply nth_error_None; rewrite length_firstn; lia).
    unfold IO.bindM at 1, IO.lift, index. rewrite E. reflexivity.
Qed.

(** Witness of X16: "in 2" with a two-byte reply. *)
Lemma mqtt_in_command_witness :
  exists w', MqttText.process_command 1 "in 2" (mkWorld [] [[Byte.x01; Byte.x03]] [] []) =
             (Err (IndexError "index out of range"), w').
Proof.
  eexists. apply (proj2 (proj2 (mqtt_in_command 1 2 [Byte.x01; Byte.x03] [] [] [] []
                                   ltac:(lia) ltac:(reflexivity)))).
  simpl; lia.
Defined.

(** ** Witnesses *)

(** Witness of X9: "out 3 on" on device 1 with a one-byte reply. *)
Lemma mqtt_out_command_witness :
  exists w', MqttText.process_command 1 "out 3 on" (mkWorld [] [[Byte.x01]] [] []) = (Ok tt, w').
Proof.
  eexists. apply (mqtt_out_command 1 3 "on" [Byte.x01] [] [] [] []); [lia | lia | left; reflexivity].
Defined.

(** Witness of X10: "out 3 toggle", "out 9 on", and "out 3 on" on device 300. *)
Lemma mqtt_out_command_rejects_witness :
  (exists w', MqttText.process_command 1 "out 3 toggle" (mkWorld [] [] [] []) =
              (Err (ValueError "action must be 'on' or 'off'"), w')) /\
  (exists w', MqttText.process_command 1 "out 9 on" (mkWorld [] [] [] []) =
              (Err (ValueError "channel must be 1-8"), w')) /\
  (exists w', MqttText.process_command 300 "out 3 on" (mkWorld [] [] [] []) =
              (Err (ValueError "bytes must be in range(0, 256)"), w')).
Proof.
  split; [|split]; eexists.
  - apply (proj1 (mqtt_out_command_rejects 1 3 "toggle" [] [] [] []
             ltac:(reflexivity) ltac:(reflexivity))); discriminate.
  - apply (proj1 (proj2 (mqtt_out_command_rejects 1 9 "on" [] [] [] []
             ltac:(reflexivity) ltac:(reflexivity)))); [left; reflexivity | lia].
  - apply (proj2 (proj2 (mqtt_out_command_rejects 300 3 "on" [] [] [] []
             ltac:(reflexivity) ltac:(reflexivity)))); [left; reflexivity | lia | lia].
Defined.

(** Witness of X11: "on all" on device 1 with eight empty replies. *)
Lemma mqtt_on_off_all_witness :
  exists w', MqttText.process_command 1 "on all" (mkWorld [] (repeat [] 8 ++ []) [] []) = (Ok tt, w').
Proof.
  eexists. apply (mqtt_on_off_all 1 (repeat [] 8) [] [] [] [] ltac:(lia) eq_refl
                    "on all" "on" " ON response: " " No response (timeout)").
  left; reflexivity.
Defined.

(** Witness of X12: "status inp" on device 1 with eight empty replies. *)
Lemma mqtt_status_commands_witness :
  exists w', MqttText.process_command 1 "status inp" (mkWorld [] (repeat [] 8 ++ []) [] []) = (Ok tt, w').
Proof.
  eexists. apply (mqtt_status_commands 1 (repeat [] 8) [] [] [] [] ltac:(lia) eq_refl
                    ltac:(repeat constructor; left; reflexivity) "status inp" (input_frame 1)).
  right; split; reflexivity.
Defined.

(** Witness of X14: "off all" on device 1 with eight empty replies. *)
Lemma raw_on_off_all_witness :
  exists w', RawTest.handle_command 1 "off all" RawTest.CliOffAll
               (mkWorld [] (repeat [] 8 ++ []) [] []) = (Ok tt, w').
Proof.
  eexists. apply (raw_on_off_all 1 (repeat [] 8) [] [] [] [] ltac:(lia) eq_refl
                    RawTest.CliOffAll "off all" "off" " OFF response:").
  right; reflexivity.
Defined.
